(** * The IoT device of the edge-offloading simulation (src/iot_device.py)

    A shallow embedding of class [IoTDevice]: its energy accounting
    ([update_battery], [process_task_locally]), the choice of an edge node
    ([_select_best_edge_node]), the offloading decision
    ([should_offload_task]), the movement model ([update_location]), the
    constructor ([__init__]), task generation ([generate_task]) and the
    status report ([get_status]).  What the random generator draws is an
    argument of the method that draws it.

    Numbers.  The methods are embedded twice.  In the first embedding
    Python's [int] and [float] values are exact rationals ([Q]): it carries
    the properties that do not depend on how a result is rounded (which
    attributes a method writes, which rule decides, what raises on a zero
    divisor, what a run of calls keeps).  There [/] raises
    [ZeroDivisionError] on a zero divisor and nothing else, every score is
    finite, and the square root that [** 0.5] computes and the functions
    [math.cos], [math.sin] are parameters.  In the second embedding, module
    [Binary64], numbers are doubles with their rounded operations, [nan] and
    infinities: it carries the claims on what the code's comparisons of
    computed values yield (the clamp of [update_battery], the selection of a
    node, the comparison of utilities).

    Effects.  A method is a computation in a state-and-exception monad: it
    reads and writes attributes of the objects it can reach and either
    returns a value or raises; what it wrote before raising stays written.
    Calls to [logging] are not modelled. *)

From Stdlib Require Import QArith Qminmax ZArith List String Bool Lia Lqa.
From Stdlib Require Import DecimalString.
From Stdlib Require DecimalPos DecimalZ.
From Stdlib Require Import Floats.
Import ListNotations.

(** A decimal literal denotes the double nearest to it, as in Python. *)
Set Warnings "-inexact-float".

Local Open Scope Q_scope.

(** ** Outcomes and the monad of methods *)

Inductive exn : Type :=
| ZeroDivisionError
| NameError (name : string).

Inductive outcome (A : Type) : Type :=
| Returned (a : A)
| Raised (e : exn).

Arguments Returned {A} a.
Arguments Raised {A} e.

Module Py.

Definition M (S A : Type) : Type := S -> outcome A * S.

Definition ret {S A} (a : A) : M S A := fun s => (Returned a, s).

Definition bind {S A B} (m : M S A) (k : A -> M S B) : M S B :=
  fun s =>
    match m s with
    | (Returned a, s') => k a s'
    | (Raised e, s') => (Raised e, s')
    end.

Definition raise {S A} (e : exn) : M S A := fun s => (Raised e, s).

Definition gets {S A} (f : S -> A) : M S A := fun s => (Returned (f s), s).

Definition modify {S} (f : S -> S) : M S unit := fun s => (Returned tt, f s).

(** The value a call returns (or the exception it raises) and the state it
    leaves. *)
Definition result {S A} (m : M S A) (s : S) : outcome A := fst (m s).
Definition final {S A} (m : M S A) (s : S) : S := snd (m s).

End Py.

Import Py.

Declare Scope py_scope.
Delimit Scope py_scope with py.
Notation "x <- m ;; k" := (bind m (fun x => k))
  (at level 61, m at next level, right associativity) : py_scope.
Notation "m ;; k" := (bind m (fun _ => k))
  (at level 61, right associativity) : py_scope.
Local Open Scope py_scope.

(** ** Python's arithmetic and comparisons on numbers *)

(** [a < b], [a <= b] and [a > b]. *)
Definition lt (a b : Q) : bool := negb (Qle_bool b a).
Definition le (a b : Q) : bool := Qle_bool a b.
Definition gt (a b : Q) : bool := lt b a.

(** [a / b] on exact numbers: true division, which raises on a zero
    divisor.  The quotient is not rounded, and the [OverflowError] of an
    [int] too large for a double is outside this embedding. *)
Definition pydiv {S} (a b : Q) : M S Q :=
  if Qeq_bool b 0 then raise ZeroDivisionError else ret (a / b).

(** The builtins [max(a, b)] and [min(a, b)]: the first argument is kept
    unless the second is strictly better. *)
Definition pymax (a b : Q) : Q := if lt a b then b else a.
Definition pymin (a b : Q) : Q := if lt b a then b else a.

(** [float('inf')] or a finite number: the type of [best_score] when every
    score is an exact, finite number, and so below [float('inf')].  Scores
    that compute to [inf] or [nan] are those of [Binary64.select_loop]. *)
Inductive xnum : Type :=
| Fin (q : Q)
| Inf.

Definition lt_x (a : Q) (b : xnum) : bool :=
  match b with
  | Fin q => lt a q
  | Inf => true
  end.

(** [str(n)] for an [int]. *)
Definition str (n : Z) : string := NilZero.string_of_int (Z.to_int n).

(** [d.get(key, default)] on a dict literal, kept as its list of items. *)
Fixpoint dict_get {V} (d : list (string * V)) (key : string) (default : V) : V :=
  match d with
  | [] => default
  | (k, v) :: d' => if String.eqb k key then v else dict_get d' key default
  end.

(** ** The objects *)

(** [self.network_params]: the entry of the device's wireless technology in
    the configuration.  The keys the device reads are the fields. *)
Record NetworkParams : Type := {
  bandwidth_mbps : Q;
  latency_ms : Q;
  reliability : Q;
  energy_consumption : Q
}.

(** [self.offloading_policy]. *)
Record OffloadingPolicy : Type := {
  threshold_battery_level : Q;
  threshold_task_size : Q;
  threshold_network_quality : Q;
  weight_energy : Q;
  weight_latency : Q;
  weight_cost : Q
}.

Module Task.

(** Modelled from the spec: class [Task] (module [task]) is imported by the
    device; these are the attributes the device reads and assigns.  [None]
    is Python's [None] of an attribute that holds no value yet. *)
Record t : Type := {
  task_id : string;
  mips_required : Q;
  input_size : Q;
  start_time : option Q;
  completion_time : option Q;
  executed_on : option string;
  status : string
}.

Definition set_start_time (v : option Q) (k : t) : t :=
  {| task_id := task_id k; mips_required := mips_required k;
     input_size := input_size k; start_time := v;
     completion_time := completion_time k; executed_on := executed_on k;
     status := status k |}.

Definition set_completion_time (v : option Q) (k : t) : t :=
  {| task_id := task_id k; mips_required := mips_required k;
     input_size := input_size k; start_time := start_time k;
     completion_time := v; executed_on := executed_on k;
     status := status k |}.

Definition set_executed_on (v : option string) (k : t) : t :=
  {| task_id := task_id k; mips_required := mips_required k;
     input_size := input_size k; start_time := start_time k;
     completion_time := completion_time k; executed_on := v;
     status := status k |}.

Definition set_status (v : string) (k : t) : t :=
  {| task_id := task_id k; mips_required := mips_required k;
     input_size := input_size k; start_time := start_time k;
     completion_time := completion_time k; executed_on := executed_on k;
     status := v |}.

End Task.

Module EdgeNode.

(** Modelled from the spec: the edge node is an external collaborator that
    exposes a position, a processing rate, a cost per unit of work and a
    utilization query. *)
Record t : Type := {
  location : Q * Q;
  mips : Q;
  cost_per_mips : Q;
  utilization : Q
}.

(** Modelled from the spec: [node.get_utilization()] reports the node's
    current utilization fraction; it reads the node and changes nothing. *)
Definition get_utilization {S} (node : t) : M S Q := ret (utilization node).

End EdgeNode.

Record IoTDevice : Type := {
  device_id : Z;
  device_type : string;
  mips : Q;
  ram : Q;
  battery_capacity : Q;
  current_battery : Q;
  battery_consumption_rate : Q;
  task_generation_rate : Q;
  wireless_tech : string;
  mobility : bool;
  location : Q * Q;
  connected_edge_node : option Z;
  network_params : NetworkParams;
  offloading_policy : OffloadingPolicy;
  tasks_generated : Z;
  tasks_offloaded : Z;
  tasks_processed_locally : Z;
  energy_consumed : Q
}.

Definition set_current_battery (v : Q) (d : IoTDevice) : IoTDevice :=
  {| device_id := device_id d; device_type := device_type d; mips := mips d;
     ram := ram d; battery_capacity := battery_capacity d;
     current_battery := v;
     battery_consumption_rate := battery_consumption_rate d;
     task_generation_rate := task_generation_rate d;
     wireless_tech := wireless_tech d; mobility := mobility d;
     location := location d; connected_edge_node := connected_edge_node d;
     network_params := network_params d;
     offloading_policy := offloading_policy d;
     tasks_generated := tasks_generated d;
     tasks_offloaded := tasks_offloaded d;
     tasks_processed_locally := tasks_processed_locally d;
     energy_consumed := energy_consumed d |}.

Definition set_energy_consumed (v : Q) (d : IoTDevice) : IoTDevice :=
  {| device_id := device_id d; device_type := device_type d; mips := mips d;
     ram := ram d; battery_capacity := battery_capacity d;
     current_battery := current_battery d;
     battery_consumption_rate := battery_consumption_rate d;
     task_generation_rate := task_generation_rate d;
     wireless_tech := wireless_tech d; mobility := mobility d;
     location := location d; connected_edge_node := connected_edge_node d;
     network_params := network_params d;
     offloading_policy := offloading_policy d;
     tasks_generated := tasks_generated d;
     tasks_offloaded := tasks_offloaded d;
     tasks_processed_locally := tasks_processed_locally d;
     energy_consumed := v |}.

Definition set_tasks_processed_locally (v : Z) (d : IoTDevice) : IoTDevice :=
  {| device_id := device_id d; device_type := device_type d; mips := mips d;
     ram := ram d; battery_capacity := battery_capacity d;
     current_battery := current_battery d;
     battery_consumption_rate := battery_consumption_rate d;
     task_generation_rate := task_generation_rate d;
     wireless_tech := wireless_tech d; mobility := mobility d;
     location := location d; connected_edge_node := connected_edge_node d;
     network_params := network_params d;
     offloading_policy := offloading_policy d;
     tasks_generated := tasks_generated d;
     tasks_offloaded := tasks_offloaded d;
     tasks_processed_locally := v;
     energy_consumed := energy_consumed d |}.

Definition set_location (v : Q * Q) (d : IoTDevice) : IoTDevice :=
  {| device_id := device_id d; device_type := device_type d; mips := mips d;
     ram := ram d; battery_capacity := battery_capacity d;
     current_battery := current_battery d;
     battery_consumption_rate := battery_consumption_rate d;
     task_generation_rate := task_generation_rate d;
     wireless_tech := wireless_tech d; mobility := mobility d;
     location := v; connected_edge_node := connected_edge_node d;
     network_params := network_params d;
     offloading_policy := offloading_policy d;
     tasks_generated := tasks_generated d;
     tasks_offloaded := tasks_offloaded d;
     tasks_processed_locally := tasks_processed_locally d;
     energy_consumed := energy_consumed d |}.

(** ** The names bound in the module's namespace

    [iot_device.py] imports [random], [time], [json], [logging] and [Task]
    and defines [IoTDevice]; a global name outside this list (and outside
    the builtins) raises [NameError] when it is looked up. *)
Definition module_globals : list string :=
  ["random"; "time"; "json"; "logging"; "Task"; "IoTDevice"]%string.

Definition global_name {S} (name : string) : M S unit :=
  if existsb (String.eqb name) module_globals then ret tt
  else raise (NameError name).

(** ** update_battery *)

Definition update_battery (time_elapsed : Q) : M IoTDevice bool :=
  rate <- gets battery_consumption_rate ;;
  let consumption := rate * time_elapsed in
  cb <- gets current_battery ;;
  modify (set_current_battery (cb - consumption)) ;;
  ec <- gets energy_consumed ;;
  modify (set_energy_consumed (ec + consumption)) ;;
  cb' <- gets current_battery ;;
  if le cb' 0 then
    modify (set_current_battery 0) ;;
    ret false
  else ret true.

(** A run of calls, one per elapsed interval, each on the state the previous
    one left. *)
Fixpoint update_battery_run (ts : list Q) (d : IoTDevice) : IoTDevice :=
  match ts with
  | [] => d
  | t :: ts' => update_battery_run ts' (final (update_battery t) d)
  end.

(** ** process_task_locally

    The state is the device and the task the call received. *)

Definition Local : Type := (IoTDevice * Task.t)%type.

Definition self_ {A} (f : IoTDevice -> A) : M Local A := gets (fun s => f (fst s)).
Definition task_ {A} (f : Task.t -> A) : M Local A := gets (fun s => f (snd s)).
Definition set_self (f : IoTDevice -> IoTDevice) : M Local unit :=
  modify (fun s => (f (fst s), snd s)).
Definition set_task (f : Task.t -> Task.t) : M Local unit :=
  modify (fun s => (fst s, f (snd s))).

Definition process_task_locally (current_time : Q) : M Local (option Q) :=
  mr <- task_ Task.mips_required ;;
  m <- self_ mips ;;
  execution_time <- pydiv mr m ;;
  set_task (Task.set_start_time (Some current_time)) ;;
  set_task (Task.set_completion_time (Some (current_time + execution_time))) ;;
  id <- self_ device_id ;;
  set_task (Task.set_executed_on (Some ("device_" ++ str id)%string)) ;;
  set_task (Task.set_status "processing") ;;
  n <- self_ tasks_processed_locally ;;
  set_self (set_tasks_processed_locally (n + 1)%Z) ;;
  rate <- self_ battery_consumption_rate ;;
  let energy_used := execution_time * rate * 2 in
  cb <- self_ current_battery ;;
  set_self (set_current_battery (cb - energy_used)) ;;
  ec <- self_ energy_consumed ;;
  set_self (set_energy_consumed (ec + energy_used)) ;;
  task_ Task.completion_time.

(** ** The decision and the movement model

    The state of [should_offload_task] and of [_select_best_edge_node] is
    the device, the task and the list of edge nodes the call received. *)

Record World : Type := {
  self : IoTDevice;
  task : Task.t;
  edge_nodes : list EdgeNode.t
}.

Definition dev {A} (f : IoTDevice -> A) : M World A := gets (fun w => f (self w)).
Definition tsk {A} (f : Task.t -> A) : M World A := gets (fun w => f (task w)).
Definition policy (f : OffloadingPolicy -> Q) : M World Q :=
  gets (fun w => f (offloading_policy (self w))).
Definition net (f : NetworkParams -> Q) : M World Q :=
  gets (fun w => f (network_params (self w))).

(** The dict literal of [_select_best_edge_node]. *)
Definition distance_weights : list (string * Q) :=
  [("WiFi", 1); ("BLE", 1.5); ("LTE", 0.7); ("FiveG", 0.5)]%string.

Section Functions.

(** [x ** 0.5], [math.cos] and [math.sin]. *)
Variable sqrt : Q -> Q.
Variables cos sin : Q -> Q.

(** The score of one candidate: lower is better. *)
Definition node_score (d : IoTDevice) (node : EdgeNode.t) : Q :=
  let distance :=
    sqrt ((fst (location d) - fst (EdgeNode.location node)) ^ 2 +
          (snd (location d) - snd (EdgeNode.location node)) ^ 2) in
  let load_factor := EdgeNode.utilization node in
  let distance_weight := dict_get distance_weights (wireless_tech d) 1 in
  distance * distance_weight + load_factor * 100.

(** The body of [for node in edge_nodes], with the loop's two variables. *)
Fixpoint select_loop (nodes : list EdgeNode.t)
    (best_node : option EdgeNode.t) (best_score : xnum)
    : M World (option EdgeNode.t) :=
  match nodes with
  | [] => ret best_node
  | node :: rest =>
      loc <- dev location ;;
      let distance :=
        sqrt ((fst loc - fst (EdgeNode.location node)) ^ 2 +
              (snd loc - snd (EdgeNode.location node)) ^ 2) in
      load_factor <- EdgeNode.get_utilization node ;;
      tech <- dev wireless_tech ;;
      let distance_weight := dict_get distance_weights tech 1 in
      let score := distance * distance_weight + load_factor * 100 in
      if lt_x score best_score
      then select_loop rest (Some node) (Fin score)
      else select_loop rest best_node best_score
  end.

Definition _select_best_edge_node : M World (option EdgeNode.t) :=
  nodes <- gets edge_nodes ;;
  match nodes with
  | [] => ret None
  | _ => select_loop nodes None Inf
  end.

(** The third rule of [should_offload_task]: a large input on a good
    link. *)
Definition large_task_on_good_link : M World bool :=
  size <- tsk Task.input_size ;;
  threshold <- policy threshold_task_size ;;
  if gt size threshold then
    rel <- net reliability ;;
    bw <- net bandwidth_mbps ;;
    normalized <- pydiv bw 100 ;;
    let network_quality := rel * normalized in
    quality <- policy threshold_network_quality ;;
    ret (gt network_quality quality)
  else ret false.

Definition should_offload_task : M World bool :=
  cb <- dev current_battery ;;
  cap <- dev battery_capacity ;;
  fraction <- pydiv cb cap ;;
  level <- policy threshold_battery_level ;;
  if lt fraction level then ret true else
  mr <- tsk Task.mips_required ;;
  m <- dev mips ;;
  if gt mr m then ret true else
  fires <- large_task_on_good_link ;;
  if fires then ret true else
  local_completion_time <- pydiv mr m ;;
  best_edge_node <- _select_best_edge_node ;;
  match best_edge_node with
  | Some node =>
      lat <- net latency_ms ;;
      latency_sec <- pydiv lat 1000 ;;
      size <- tsk Task.input_size ;;
      bw <- net bandwidth_mbps ;;
      transfer_time <- pydiv size (bw * 125000) ;;
      edge_processing_time <- pydiv mr (EdgeNode.mips node) ;;
      let edge_completion_time :=
        latency_sec + transfer_time + edge_processing_time in
      local_time <- pydiv mr m ;;
      rate <- dev battery_consumption_rate ;;
      let local_energy := local_time * rate * 2 in
      link_energy <- net energy_consumption ;;
      let edge_energy := transfer_time * link_energy in
      w_energy <- policy weight_energy ;;
      w_latency <- policy weight_latency ;;
      w_cost <- policy weight_cost ;;
      let local_utility :=
        w_energy * local_energy + w_latency * local_completion_time in
      let edge_utility :=
        w_energy * edge_energy + w_latency * edge_completion_time +
        w_cost * (mr * EdgeNode.cost_per_mips node) in
      ret (lt edge_utility local_utility)
  | None => ret false
  end.

(** [update_location].  [angle] is the number [random.uniform] draws.  The
    names [random] and [math] are globals of the module, looked up when the
    statement that uses them runs. *)
Definition update_location (time_elapsed angle : Q) : M IoTDevice unit :=
  mobile <- gets mobility ;;
  if negb mobile then ret tt else
  let speed := 5 in
  let distance := speed * time_elapsed in
  global_name "random" ;;
  global_name "math" ;;
  let dx := distance * cos angle in
  global_name "math" ;;
  let dy := distance * sin angle in
  loc <- gets location ;;
  let new_x := pymax 0 (pymin 1000 (fst loc + dx)) in
  let new_y := pymax 0 (pymin 1000 (snd loc + dy)) in
  modify (set_location (new_x, new_y)).

End Functions.

(** A rational square root for the examples: the integer square root of the
    argument scaled by [10^12], which is exact on the squares of integers. *)
Definition sqrt6 (q : Q) : Q :=
  Z.sqrt (Qnum q * QDen q * 10 ^ 12) # (Qden q * 10 ^ 6).

(** Stand-ins for the trigonometric functions in the examples. *)
Definition cos0 (_ : Q) : Q := 1.
Definition sin0 (_ : Q) : Q := 0.

(** ** Concrete objects used in the examples below *)

Definition wifi : NetworkParams :=
  {| bandwidth_mbps := 50; latency_ms := 10; reliability := 0.9;
     energy_consumption := 0.5 |}.

Definition default_policy : OffloadingPolicy :=
  {| threshold_battery_level := 0.2; threshold_task_size := 1000000;
     threshold_network_quality := 0.6; weight_energy := 0.4;
     weight_latency := 0.4; weight_cost := 0.2 |}.

(** A device as [__init__] leaves it, but for its battery level and its
    position, which the examples choose. *)
Definition device (m capacity level rate : Q) (mobile : bool) (pos : Q * Q)
    : IoTDevice :=
  {| device_id := 7; device_type := "smartphone"; mips := m; ram := 4096;
     battery_capacity := capacity; current_battery := level;
     battery_consumption_rate := rate; task_generation_rate := 0.5;
     wireless_tech := "WiFi"; mobility := mobile; location := pos;
     connected_edge_node := None; network_params := wifi;
     offloading_policy := default_policy; tasks_generated := 0;
     tasks_offloaded := 0; tasks_processed_locally := 0;
     energy_consumed := 0 |}.

Definition new_task (required size : Q) : Task.t :=
  {| Task.task_id := "7_0"; Task.mips_required := required;
     Task.input_size := size; Task.start_time := None;
     Task.completion_time := None; Task.executed_on := None;
     Task.status := "created" |}.

Definition node_at (pos : Q * Q) (m cost load : Q) : EdgeNode.t :=
  {| EdgeNode.location := pos; EdgeNode.mips := m;
     EdgeNode.cost_per_mips := cost; EdgeNode.utilization := load |}.

(** A device with a battery of zero capacity, and a task beyond its
    processing rate. *)
Definition no_battery_world : World :=
  {| self := device 1000 0 0 1 false (0, 0);
     task := new_task 2000 100;
     edge_nodes := [] |}.

(** A device at 10 percent of its battery, with no edge node in reach. *)
Definition low_battery_world : World :=
  {| self := device 1000 1000 100 1 false (0, 0);
     task := new_task 500 100;
     edge_nodes := [] |}.

(** A fresh device: capacity 10, full battery, consumption rate 1. *)
Definition fresh_device : IoTDevice := device 1000 10 10 1 false (0, 0).

(** A device whose battery holds 1 unit, and a task that costs 2 units to
    run on it. *)
Definition nearly_flat : Local :=
  (device 1000 10 1 1 false (0, 0), new_task 1000 100).

(** A mobile device in the middle of the region. *)
Definition walker : IoTDevice := device 1000 10 10 1 true (500, 500).

(** The scenario of the specification: a device of 5000 MIPS at 90 percent
    of its battery, a task of 1000 MIPS with a small input, and two
    candidate nodes at the same place, the second one more loaded. *)
Definition two_node_world : World :=
  {| self := device 5000 1000 900 1 false (0, 0);
     task := new_task 1000 500000;
     edge_nodes := [node_at (3, 4) 10000 0.001 0.1;
                    node_at (3, 4) 10000 0.001 0.9] |}.

(** ** Properties of computations and of selections *)

(** A computation that leaves every state as it found it. *)
Definition reads_only {S A} (m : M S A) : Prop :=
  forall s, snd (m s) = s.

(** [n] is the candidate at position [i] of [nodes], no candidate scores
    lower, and every candidate before it scores strictly higher. *)
Definition first_minimum (score : EdgeNode.t -> Q) (nodes : list EdgeNode.t)
    (i : nat) (n : EdgeNode.t) : Prop :=
  nth_error nodes i = Some n /\
  (forall j m, nth_error nodes j = Some m -> score n <= score m) /\
  (forall j m, (j < i)%nat -> nth_error nodes j = Some m -> score n < score m).

(** The two variables of the selection loop after it has gone through the
    candidates [seen]. *)
Definition loop_state (score : EdgeNode.t -> Q) (seen : list EdgeNode.t)
    (best_node : option EdgeNode.t) (best_score : xnum) : Prop :=
  match best_node with
  | None => seen = [] /\ best_score = Inf
  | Some n => best_score = Fin (score n) /\ exists i, first_minimum score seen i n
  end.

(** ** Construction: __init__

    The configuration is the nested dict the constructor receives; the keys
    it reads are the fields.  [config['network']['technologies']] is indexed
    by a technology that the configuration may lack, so it stays a dict,
    kept as its list of items. *)

Module DeviceType.

(** An entry of [config['iot_devices']['types']]. *)
Record t : Type := {
  name : string;
  mips : Q;
  ram : Q;
  battery_capacity : Q;
  battery_consumption_rate : Q;
  task_generation_rate : Q;
  wireless_technology : string;
  mobility : bool
}.

End DeviceType.

Module Config.

Record t : Type := {
  types : list DeviceType.t;
  technologies : list (string * NetworkParams);
  offloading_policy : OffloadingPolicy
}.

End Config.

(** What the constructor can raise. *)
Inductive init_error : Type :=
| IndexError
| KeyError (key : string).

(** [d[key]]: the value of the first item with that key, if any. *)
Fixpoint dict_lookup {V} (d : list (string * V)) (key : string) : option V :=
  match d with
  | [] => None
  | (k, v) :: d' => if String.eqb k key then Some v else dict_lookup d' key
  end.

(** [random.choice(seq)] on a sequence that is not empty: the element at
    the index the generator draws, which lies below the length. *)
Definition choice {A} (drawn : nat) (seq : list A) (first : A) : A :=
  nth (drawn mod List.length seq) seq first.

(** [next((t for t in types if t['name'] == device_type), default)]. *)
Definition next_named (device_type : string) (types : list DeviceType.t)
    (default : DeviceType.t) : DeviceType.t :=
  match find (fun t => String.eqb (DeviceType.name t) device_type) types with
  | Some t => t
  | None => default
  end.

(** [IoTDevice(device_id, config, device_type)].  [drawn] is the index
    [random.choice] draws, [x] and [y] are the two numbers [random.uniform]
    draws.  Both [random.choice] on an empty list and [types[0]] raise
    [IndexError]; the default of [next] is evaluated before the search. *)
Definition __init__ (device_id : Z) (config : Config.t)
    (device_type : option string) (drawn : nat) (x y : Q)
    : init_error + IoTDevice :=
  match Config.types config with
  | [] => inl IndexError
  | first :: _ =>
      let device_config :=
        match device_type with
        | None => choice drawn (Config.types config) first
        | Some wanted => next_named wanted (Config.types config) first
        end in
      let tech := DeviceType.wireless_technology device_config in
      match dict_lookup (Config.technologies config) tech with
      | None => inl (KeyError tech)
      | Some params =>
          inr {| device_id := device_id;
                 device_type := DeviceType.name device_config;
                 mips := DeviceType.mips device_config;
                 ram := DeviceType.ram device_config;
                 battery_capacity := DeviceType.battery_capacity device_config;
                 current_battery := DeviceType.battery_capacity device_config;
                 battery_consumption_rate :=
                   DeviceType.battery_consumption_rate device_config;
                 task_generation_rate :=
                   DeviceType.task_generation_rate device_config;
                 wireless_tech := tech;
                 mobility := DeviceType.mobility device_config;
                 location := (x, y);
                 connected_edge_node := None;
                 network_params := params;
                 offloading_policy := Config.offloading_policy config;
                 tasks_generated := 0;
                 tasks_offloaded := 0;
                 tasks_processed_locally := 0;
                 energy_consumed := 0 |}
      end
  end.

(** ** generate_task *)

Definition set_tasks_generated (v : Z) (d : IoTDevice) : IoTDevice :=
  {| device_id := device_id d; device_type := device_type d; mips := mips d;
     ram := ram d; battery_capacity := battery_capacity d;
     current_battery := current_battery d;
     battery_consumption_rate := battery_consumption_rate d;
     task_generation_rate := task_generation_rate d;
     wireless_tech := wireless_tech d; mobility := mobility d;
     location := location d; connected_edge_node := connected_edge_node d;
     network_params := network_params d;
     offloading_policy := offloading_policy d;
     tasks_generated := v;
     tasks_offloaded := tasks_offloaded d;
     tasks_processed_locally := tasks_processed_locally d;
     energy_consumed := energy_consumed d |}.

Module NewTask.

(** The call [Task(task_id, task_type, device_id, simulation_time)].  Class
    [Task] is not part of this file: the task a device generates is kept as
    the four arguments its constructor receives. *)
Record t : Type := {
  task_id : string;
  task_type : string;
  device_id : Z;
  simulation_time : Q
}.

End NewTask.

(** [sample] is the number [random.random()] draws and [drawn] the index
    [random.choice] draws when the type of the task is left to chance. *)
Definition generate_task (simulation_time sample : Q) (drawn : nat)
    : M IoTDevice (option NewTask.t) :=
  rate <- gets task_generation_rate ;;
  if le sample rate then
    id <- gets device_id ;;
    n <- gets tasks_generated ;;
    let task_id := (str id ++ "_" ++ str n)%string in
    modify (set_tasks_generated (n + 1)%Z) ;;
    m <- gets mips ;;
    let task_type :=
      (if lt m 1000 then "lightweight"
       else if lt m 3000 then choice drawn ["lightweight"; "medium"] "lightweight"
       else choice drawn ["lightweight"; "medium"; "intensive"] "lightweight")%string in
    id' <- gets device_id ;;
    ret (Some {| NewTask.task_id := task_id; NewTask.task_type := task_type;
                 NewTask.device_id := id';
                 NewTask.simulation_time := simulation_time |})
  else ret None.

(** A run of ticks, each with its simulation time and its two draws: the
    tasks generated, oldest first, and the device the run leaves. *)
Fixpoint generate_task_run (ticks : list (Q * Q * nat)) (d : IoTDevice)
    : list NewTask.t * IoTDevice :=
  match ticks with
  | [] => ([], d)
  | (time, sample, drawn) :: ticks' =>
      let d' := final (generate_task time sample drawn) d in
      let later := generate_task_run ticks' d' in
      match result (generate_task time sample drawn) d with
      | Returned (Some new) => (new :: fst later, snd later)
      | _ => later
      end
  end.

(** ** get_status *)

Module Status.

(** The dict [get_status] returns; its keys are the fields. *)
Record t : Type := {
  device_id : Z;
  type : string;
  battery_level : Q;
  location : Q * Q;
  tasks_generated : Z;
  tasks_offloaded : Z;
  tasks_local : Z;
  energy_consumed : Q
}.

End Status.

Definition get_status : M IoTDevice Status.t :=
  id <- gets device_id ;;
  ty <- gets device_type ;;
  cb <- gets current_battery ;;
  cap <- gets battery_capacity ;;
  level <- pydiv cb cap ;;
  loc <- gets location ;;
  generated <- gets tasks_generated ;;
  offloaded <- gets tasks_offloaded ;;
  local <- gets tasks_processed_locally ;;
  energy <- gets energy_consumed ;;
  ret {| Status.device_id := id; Status.type := ty;
         Status.battery_level := level; Status.location := loc;
         Status.tasks_generated := generated;
         Status.tasks_offloaded := offloaded; Status.tasks_local := local;
         Status.energy_consumed := energy |}.

(** ** More concrete objects *)

Definition sensor_type : DeviceType.t :=
  {| DeviceType.name := "sensor"; DeviceType.mips := 500;
     DeviceType.ram := 256; DeviceType.battery_capacity := 1000;
     DeviceType.battery_consumption_rate := 0.1;
     DeviceType.task_generation_rate := 0.2;
     DeviceType.wireless_technology := "BLE";
     DeviceType.mobility := false |}.

Definition phone_type : DeviceType.t :=
  {| DeviceType.name := "smartphone"; DeviceType.mips := 2500;
     DeviceType.ram := 4096; DeviceType.battery_capacity := 4000;
     DeviceType.battery_consumption_rate := 0.5;
     DeviceType.task_generation_rate := 0.5;
     DeviceType.wireless_technology := "WiFi";
     DeviceType.mobility := false |}.

(** A configuration with two device types; only WiFi has parameters. *)
Definition small_config : Config.t :=
  {| Config.types := [sensor_type; phone_type];
     Config.technologies := [("WiFi"%string, wifi)];
     Config.offloading_policy := default_policy |}.



(** A stationary device at the origin on a given link. *)
Definition device_on (link : NetworkParams) (m capacity level rate : Q)
    : IoTDevice :=
  {| device_id := 7; device_type := "smartphone"; mips := m; ram := 4096;
     battery_capacity := capacity; current_battery := level;
     battery_consumption_rate := rate; task_generation_rate := 0.5;
     wireless_tech := "WiFi"; mobility := false; location := (0, 0);
     connected_edge_node := None; network_params := link;
     offloading_policy := default_policy; tasks_generated := 0;
     tasks_offloaded := 0; tasks_processed_locally := 0;
     energy_consumed := 0 |}.


(** ** The same methods over binary64 numbers

    What a method computes depends on rounding wherever the code compares
    the outcome of its arithmetic: the sign of a battery level, two
    utilities, two scores.  In this module every number is a double
    ([float], the binary64 format of Python's [float]) and every operation
    is the correctly rounded IEEE operation, so that comparisons see what
    the code sees: [nan], the infinities, ties made or broken by rounding.
    An attribute that holds an [int] is taken as the double of the same
    value.

    [x ** 2] and [x ** 0.5] are parameters: the first may raise
    [OverflowError], the second does not on a sum of squares. *)

Module Binary64.

Local Open Scope float_scope.

Inductive exn : Type :=
| ZeroDivisionError
| OverflowError.

Inductive outcome (A : Type) : Type :=
| Returned (a : A)
| Raised (e : exn).

Arguments Returned {A} a.
Arguments Raised {A} e.

Definition bind {A B} (m : outcome A) (k : A -> outcome B) : outcome B :=
  match m with
  | Returned a => k a
  | Raised e => Raised e
  end.

Declare Scope b64_scope.
Delimit Scope b64_scope with b64.
Notation "x <- m ;; k" := (bind m (fun x => k))
  (at level 61, m at next level, right associativity) : b64_scope.
Local Open Scope b64_scope.

(** [a / b] on doubles: a zero divisor, of either sign, raises; any other
    divisor, [nan] and the infinities included, gives the rounded
    quotient. *)
Definition div (a b : float) : outcome float :=
  if b =? 0 then Raised ZeroDivisionError else Returned (a / b).

Record NetworkParams : Type := {
  bandwidth_mbps : float;
  latency_ms : float;
  reliability : float;
  energy_consumption : float
}.

Record OffloadingPolicy : Type := {
  threshold_battery_level : float;
  threshold_task_size : float;
  threshold_network_quality : float;
  weight_energy : float;
  weight_latency : float;
  weight_cost : float
}.

(** The attributes of a task that the decision reads. *)
Record Task : Type := {
  task_id : string;
  mips_required : float;
  input_size : float
}.

Module EdgeNode.

Record t : Type := {
  location : float * float;
  mips : float;
  cost_per_mips : float;
  utilization : float
}.

End EdgeNode.

Record IoTDevice : Type := {
  device_id : Z;
  device_type : string;
  mips : float;
  ram : float;
  battery_capacity : float;
  current_battery : float;
  battery_consumption_rate : float;
  task_generation_rate : float;
  wireless_tech : string;
  mobility : bool;
  location : float * float;
  connected_edge_node : option Z;
  network_params : NetworkParams;
  offloading_policy : OffloadingPolicy;
  tasks_generated : Z;
  tasks_offloaded : Z;
  tasks_processed_locally : Z;
  energy_consumed : float
}.

Definition set_current_battery (v : float) (d : IoTDevice) : IoTDevice :=
  {| device_id := device_id d; device_type := device_type d; mips := mips d;
     ram := ram d; battery_capacity := battery_capacity d;
     current_battery := v;
     battery_consumption_rate := battery_consumption_rate d;
     task_generation_rate := task_generation_rate d;
     wireless_tech := wireless_tech d; mobility := mobility d;
     location := location d; connected_edge_node := connected_edge_node d;
     network_params := network_params d;
     offloading_policy := offloading_policy d;
     tasks_generated := tasks_generated d;
     tasks_offloaded := tasks_offloaded d;
     tasks_processed_locally := tasks_processed_locally d;
     energy_consumed := energy_consumed d |}.

Definition set_energy_consumed (v : float) (d : IoTDevice) : IoTDevice :=
  {| device_id := device_id d; device_type := device_type d; mips := mips d;
     ram := ram d; battery_capacity := battery_capacity d;
     current_battery := current_battery d;
     battery_consumption_rate := battery_consumption_rate d;
     task_generation_rate := task_generation_rate d;
     wireless_tech := wireless_tech d; mobility := mobility d;
     location := location d; connected_edge_node := connected_edge_node d;
     network_params := network_params d;
     offloading_policy := offloading_policy d;
     tasks_generated := tasks_generated d;
     tasks_offloaded := tasks_offloaded d;
     tasks_processed_locally := tasks_processed_locally d;
     energy_consumed := v |}.

(** [update_battery]: the value returned and the device left.  The method
    cannot raise: it multiplies, subtracts, adds and compares doubles. *)
Definition update_battery (time_elapsed : float) (d : IoTDevice)
    : bool * IoTDevice :=
  let consumption := battery_consumption_rate d * time_elapsed in
  let d1 := set_current_battery (current_battery d - consumption) d in
  let d2 := set_energy_consumed (energy_consumed d1 + consumption) d1 in
  if current_battery d2 <=? 0
  then (false, set_current_battery 0 d2)
  else (true, d2).

(** The energy model as the specification words it, with its activity
    multiplier: [charge(activityMultiplier, elapsedTime)]. *)
Definition charge (activity_multiplier elapsed_time : float) (d : IoTDevice)
    : bool * IoTDevice :=
  let consumption :=
    battery_consumption_rate d * activity_multiplier * elapsed_time in
  let d1 := set_current_battery (current_battery d - consumption) d in
  let d2 := set_energy_consumed (energy_consumed d1 + consumption) d1 in
  if current_battery d2 <=? 0
  then (false, set_current_battery 0 d2)
  else (true, d2).

(** The dict literal of [_select_best_edge_node]. *)
Definition distance_weights : list (string * float) :=
  [("WiFi", 1); ("BLE", 1.5); ("LTE", 0.7); ("FiveG", 0.5)]%string.

(** The decision and the selection read and do not write (see
    [should_offload_task_pure]); here they are functions of what they
    read. *)
Record World : Type := {
  self : IoTDevice;
  task : Task;
  edge_nodes : list EdgeNode.t
}.

Section Powers.

(** [x ** 2] and [x ** 0.5]. *)
Variable square : float -> outcome float.
Variable root : float -> float.

(** The score the loop computes for one candidate. *)
Definition score (d : IoTDevice) (node : EdgeNode.t) : outcome float :=
  dx2 <- square (fst (location d) - fst (EdgeNode.location node)) ;;
  dy2 <- square (snd (location d) - snd (EdgeNode.location node)) ;;
  let distance := root (dx2 + dy2) in
  let load_factor := EdgeNode.utilization node in
  let distance_weight := dict_get distance_weights (wireless_tech d) 1 in
  Returned (distance * distance_weight + load_factor * 100).

(** The body of [for node in edge_nodes], with the loop's two variables;
    [best_score] starts at [float('inf')]. *)
Fixpoint select_loop (d : IoTDevice) (nodes : list EdgeNode.t)
    (best_node : option EdgeNode.t) (best_score : float)
    : outcome (option EdgeNode.t) :=
  match nodes with
  | [] => Returned best_node
  | node :: rest =>
      s <- score d node ;;
      if s <? best_score
      then select_loop d rest (Some node) s
      else select_loop d rest best_node best_score
  end.

Definition _select_best_edge_node (w : World) : outcome (option EdgeNode.t) :=
  match edge_nodes w with
  | [] => Returned None
  | _ => select_loop (self w) (edge_nodes w) None infinity
  end.

Definition should_offload_task (w : World) : outcome bool :=
  let d := self w in
  let k := task w in
  let p := offloading_policy d in
  let n := network_params d in
  fraction <- div (current_battery d) (battery_capacity d) ;;
  if fraction <? threshold_battery_level p then Returned true else
  if mips d <? mips_required k then Returned true else
  fires <-
    (if threshold_task_size p <? input_size k then
       normalized <- div (bandwidth_mbps n) 100 ;;
       let network_quality := reliability n * normalized in
       Returned (threshold_network_quality p <? network_quality)
     else Returned false) ;;
  if (fires : bool) then Returned true else
  local_completion_time <- div (mips_required k) (mips d) ;;
  best_edge_node <- _select_best_edge_node w ;;
  match best_edge_node with
  | Some node =>
      latency_sec <- div (latency_ms n) 1000 ;;
      transfer_time <- div (input_size k) (bandwidth_mbps n * 125000) ;;
      edge_processing_time <- div (mips_required k) (EdgeNode.mips node) ;;
      let edge_completion_time :=
        latency_sec + transfer_time + edge_processing_time in
      local_time <- div (mips_required k) (mips d) ;;
      let local_energy := local_time * battery_consumption_rate d * 2 in
      let edge_energy := transfer_time * energy_consumption n in
      let local_utility :=
        weight_energy p * local_energy
        + weight_latency p * local_completion_time in
      let edge_utility :=
        weight_energy p * edge_energy
        + weight_latency p * edge_completion_time
        + weight_cost p * (mips_required k * EdgeNode.cost_per_mips node) in
      Returned (edge_utility <? local_utility)
  | None => Returned false
  end.

End Powers.

(** Powers for the examples: the square by a multiplication, which raises
    when a finite number overflows, and the square root. *)
Definition square64 (x : float) : outcome float :=
  let y := x * x in
  if (abs y =? infinity) && negb (abs x =? infinity)
  then Raised OverflowError
  else Returned y.

Definition root64 (x : float) : float := sqrt x.

(** Concrete objects for the examples. *)
Definition link (bandwidth latency : float) : NetworkParams :=
  {| bandwidth_mbps := bandwidth; latency_ms := latency; reliability := 0.5;
     energy_consumption := 0.5 |}.

Definition weights (energy latency cost : float) : OffloadingPolicy :=
  {| threshold_battery_level := 0.25; threshold_task_size := 1000000;
     threshold_network_quality := 0.75; weight_energy := energy;
     weight_latency := latency; weight_cost := cost |}.

(** A stationary device at the origin with a full battery of 1000. *)
Definition device (tech : string) (m rate : float) (net : NetworkParams)
    (p : OffloadingPolicy) : IoTDevice :=
  {| device_id := 7; device_type := "smartphone"; mips := m; ram := 4096;
     battery_capacity := 1000; current_battery := 1000;
     battery_consumption_rate := rate; task_generation_rate := 0.5;
     wireless_tech := tech; mobility := false; location := (0, 0);
     connected_edge_node := None; network_params := net;
     offloading_policy := p; tasks_generated := 0; tasks_offloaded := 0;
     tasks_processed_locally := 0; energy_consumed := 0 |}.

Definition node_at (pos : float * float) (m cost load : float) : EdgeNode.t :=
  {| EdgeNode.location := pos; EdgeNode.mips := m;
     EdgeNode.cost_per_mips := cost; EdgeNode.utilization := load |}.

(** Latency is the only weight; the task takes 28/35 s on the device and
    100/1000 + 0 + 28/40 s on the node: 4/5 s either way. *)
Definition tie_world : World :=
  {| self := device "WiFi" 35 1 (link 50 100) (weights 0 1 0);
     task := {| task_id := "7_0"; mips_required := 28; input_size := 0 |};
     edge_nodes := [node_at (3, 4) 40 1 0.5] |}.

(** The same device and task with one candidate whose rate is zero. *)
Definition stalled_world : World :=
  {| self := device "WiFi" 35 1 (link 50 100) (weights 0 1 0);
     task := {| task_id := "7_0"; mips_required := 28; input_size := 0 |};
     edge_nodes := [node_at (3, 4) 0 1 0.5] |}.

(** A near candidate with a light load and a candidate on the spot with a
    heavier one, seen from a device of a given technology. *)
Definition two_candidates (tech : string) : World :=
  {| self := device tech 35 1 (link 50 100) (weights 0 1 0);
     task := {| task_id := "7_0"; mips_required := 28; input_size := 0 |};
     edge_nodes := [node_at (6, 8) 40 1 0.03125; node_at (0, 0) 40 1 0.09375] |}.

(** One candidate so far away that the sum of the squares overflows. *)
Definition far_world : World :=
  {| self := device "WiFi" 35 1 (link 50 100) (weights 0 1 0);
     task := {| task_id := "7_0"; mips_required := 28; input_size := 0 |};
     edge_nodes := [node_at (1e154, 1e154) 40 1 0.5] |}.

(** A device with 0.9 in its battery that consumes 0.3 per second. *)
Definition draining : IoTDevice :=
  set_current_battery 0.9 (device "WiFi" 35 0.3 (link 50 100) (weights 0 1 0)).

(** [cands] pairs each candidate with the score the loop computes for it.
    [n], of score [s], is the candidate at position [i]; its score is below
    [float('inf')]; no candidate scores strictly lower; every candidate
    before it scores strictly higher or has a score that is not below
    [float('inf')] ([nan] or an infinity). *)
Definition first_best (cands : list (EdgeNode.t * float)) (i : nat)
    (n : EdgeNode.t) (s : float) : Prop :=
  nth_error cands i = Some (n, s) /\
  (s <? infinity) = true /\
  (forall j m t, nth_error cands j = Some (m, t) -> (t <? s) = false) /\
  (forall j m t, (j < i)%nat -> nth_error cands j = Some (m, t) ->
     (s <? t) = true \/ (t <? infinity) = false).

(** The two variables of the loop after the candidates [seen]. *)
Definition loop_state (seen : list (EdgeNode.t * float))
    (best_node : option EdgeNode.t) (best_score : float) : Prop :=
  match best_node with
  | None =>
      best_score = infinity /\
      forall j m t, nth_error seen j = Some (m, t) -> (t <? infinity) = false
  | Some n => exists i, first_best seen i n best_score
  end.

End Binary64.


(** ** Comparisons and division *)

Lemma lt_true (a b : Q) : lt a b = true <-> a < b.
Proof.
  unfold lt. rewrite negb_true_iff. split.
  - intros H. apply Qnot_le_lt. intros L.
    apply Qle_bool_iff in L. congruence.
  - intros H. destruct (Qle_bool b a) eqn:E; [|reflexivity].
    apply Qle_bool_iff in E. exfalso. exact (Qlt_not_le _ _ H E).
Qed.

Lemma lt_false (a b : Q) : lt a b = false <-> b <= a.
Proof.
  unfold lt. rewrite negb_false_iff. apply Qle_bool_iff.
Qed.

Lemma le_true (a b : Q) : le a b = true <-> a <= b.
Proof. apply Qle_bool_iff. Qed.

Lemma le_false (a b : Q) : le a b = false <-> b < a.
Proof.
  unfold le. split.
  - intros H. apply Qnot_le_lt. intros L.
    apply Qle_bool_iff in L. congruence.
  - intros H. destruct (Qle_bool a b) eqn:E; [|reflexivity].
    apply Qle_bool_iff in E. exfalso. exact (Qlt_not_le _ _ H E).
Qed.

Lemma pydiv_returns {S} (a b : Q) (s : S) :
  ~ b == 0 -> pydiv a b s = (Returned (a / b), s).
Proof.
  intros H. unfold pydiv.
  destruct (Qeq_bool b 0) eqn:E; [|reflexivity].
  apply Qeq_bool_iff in E. contradiction.
Qed.

Lemma pydiv_raises {S} (a b : Q) (s : S) :
  b == 0 -> pydiv a b s = (Raised ZeroDivisionError, s).
Proof.
  intros H. unfold pydiv. apply Qeq_bool_iff in H. now rewrite H.
Qed.

(** Either way a division leaves the state as it found it. *)
Lemma pydiv_final {S} (a b : Q) (s : S) : snd (pydiv a b s) = s.
Proof. unfold pydiv. now destruct (Qeq_bool b 0). Qed.

(** Unfolds the plumbing of a method body applied to a state. *)
Ltac run :=
  cbv [bind ret gets modify raise dev tsk policy net self_ task_ set_self
       set_task EdgeNode.get_utilization result final];
  cbn [fst snd self task edge_nodes].

(** ** The rules of should_offload_task that force an offload *)

Section Decision.

Variable sqrt : Q -> Q.

(** The first rule alone decides when the battery is low. *)
Lemma energy_guard_fires (w : World) :
  ~ battery_capacity (self w) == 0 ->
  current_battery (self w) / battery_capacity (self w)
    < threshold_battery_level (offloading_policy (self w)) ->
  should_offload_task sqrt w = (Returned true, w).
Proof.
  intros Hcap Hlow. unfold should_offload_task. run.
  rewrite pydiv_returns by assumption.
  apply lt_true in Hlow. now rewrite Hlow.
Qed.

(** The second rule decides when the first one does not fire. *)
Lemma capability_rule_fires (w : World) :
  ~ battery_capacity (self w) == 0 ->
  mips (self w) < Task.mips_required (task w) ->
  should_offload_task sqrt w = (Returned true, w).
Proof.
  intros Hcap Hbig. unfold should_offload_task. run.
  rewrite pydiv_returns by assumption.
  destruct (lt _ _); [reflexivity|].
  unfold gt. apply lt_true in Hbig. now rewrite Hbig.
Qed.

(** A zero capacity makes the first test raise, whatever the task. *)
Lemma zero_capacity_raises (w : World) :
  battery_capacity (self w) == 0 ->
  should_offload_task sqrt w = (Raised ZeroDivisionError, w).
Proof.
  intros Hcap. unfold should_offload_task. run.
  now rewrite pydiv_raises by assumption.
Qed.

End Decision.

(** ** The forced offloads *)



(** C6, as stated, fails: with a battery of zero capacity the first test
    divides by zero, and the call raises before it looks at the task. *)
Lemma capability_rule_unreached_without_capacity :
  mips (self no_battery_world) < Task.mips_required (task no_battery_world) /\
  result (should_offload_task sqrt6) no_battery_world
  = Raised ZeroDivisionError.
Proof. split; vm_compute; reflexivity. Qed.

(** C6, amended: on a device whose battery capacity is not zero, a task
    whose [mips_required] strictly exceeds the device's [mips] is offloaded,
    whatever the list of candidate nodes. *)
Theorem capability_exceeded_forces_offload
    (sqrt : Q -> Q) (d : IoTDevice) (k : Task.t) (nodes : list EdgeNode.t) :
  ~ battery_capacity d == 0 ->
  mips d < Task.mips_required k ->
  result (should_offload_task sqrt)
    {| self := d; task := k; edge_nodes := nodes |}
  = Returned true.
Proof.
  intros Hcap Hbig. unfold result.
  now rewrite capability_rule_fires.
Qed.

Lemma capability_exceeded_forces_offload_example :
  result (should_offload_task sqrt6)
    {| self := fresh_device; task := new_task 2000 100;
       edge_nodes := [node_at (3, 4) 10000 0.001 0.5] |}
  = Returned true.
Proof.
  apply (capability_exceeded_forces_offload sqrt6 fresh_device
           (new_task 2000 100) [node_at (3, 4) 10000 0.001 0.5]).
  - vm_compute. discriminate.
  - vm_compute. reflexivity.
Defined.

(** ** The energy model *)

(** What a call of [update_battery] returns and leaves, in one equation. *)
Lemma update_battery_unfold (t : Q) (d : IoTDevice) :
  update_battery t d =
  let consumption := battery_consumption_rate d * t in
  let charged :=
    set_energy_consumed (energy_consumed d + consumption)
      (set_current_battery (current_battery d - consumption) d) in
  if le (current_battery d - consumption) 0
  then (Returned false, set_current_battery 0 charged)
  else (Returned true, charged).
Proof.
  unfold update_battery. run. cbn.
  now destruct (le _ _).
Qed.


(** While the consumption is not negative, [update_battery] keeps a level
    that lies between 0 and the capacity between 0 and the capacity. *)
Lemma update_battery_keeps_level_in_range (t : Q) (d : IoTDevice) :
  0 <= battery_consumption_rate d * t ->
  0 <= current_battery d <= battery_capacity d ->
  0 <= current_battery (final (update_battery t) d)
    <= battery_capacity (final (update_battery t) d).
Proof.
  intros Hc [H0 H1]. unfold final. rewrite update_battery_unfold. cbv zeta.
  destruct (le _ _) eqn:E; cbn.
  - split; [apply Qle_refl | now apply Qle_trans with (current_battery d)].
  - apply le_false in E. split; [now apply Qlt_le_weak | lra].
Qed.



(** ** Local execution *)

(** C5: on a device with [mips > 0], [process_task_locally(task, t)] sets
    [start_time] to [t] and [completion_time] to [t + mips_required / mips],
    returns that completion time, sets [status] to "processing" and
    [executed_on] to this device, adds exactly 1 to
    [tasks_processed_locally] and exactly
    [(mips_required / mips) * battery_consumption_rate * 2] to
    [energy_consumed]. *)
Theorem process_task_locally_effects
    (current_time : Q) (d : IoTDevice) (k : Task.t) :
  0 < mips d ->
  let execution_time := Task.mips_required k / mips d in
  let d' := fst (final (process_task_locally current_time) (d, k)) in
  let k' := snd (final (process_task_locally current_time) (d, k)) in
  result (process_task_locally current_time) (d, k)
    = Returned (Some (current_time + execution_time)) /\
  Task.start_time k' = Some current_time /\
  Task.completion_time k' = Some (current_time + execution_time) /\
  Task.status k' = "processing"%string /\
  Task.executed_on k' = Some ("device_" ++ str (device_id d))%string /\
  tasks_processed_locally d' = (tasks_processed_locally d + 1)%Z /\
  energy_consumed d'
    = energy_consumed d + execution_time * battery_consumption_rate d * 2.
Proof.
  intros Hm. cbv zeta.
  assert (Hnz : ~ mips d == 0) by (intros E; rewrite E in Hm; discriminate).
  unfold process_task_locally. run.
  rewrite pydiv_returns by assumption. cbn.
  repeat split.
Qed.

Lemma process_task_locally_effects_example :
  result (process_task_locally 5) (fresh_device, new_task 500 100)
    = Returned (Some (5 + 500 / 1000)) /\
  Task.executed_on
    (snd (final (process_task_locally 5) (fresh_device, new_task 500 100)))
    = Some "device_7"%string.
Proof.
  assert (H := process_task_locally_effects 5 fresh_device (new_task 500 100)).
  cbv zeta in H. destruct H as (Hr & _ & _ & _ & He & _).
  - vm_compute. reflexivity.
  - split; [exact Hr | exact He].
Defined.

(** The battery after local execution: the energy used is subtracted, and
    nothing bounds the result from below. *)
Lemma process_task_locally_battery
    (current_time : Q) (d : IoTDevice) (k : Task.t) :
  ~ mips d == 0 ->
  current_battery (fst (final (process_task_locally current_time) (d, k)))
  = current_battery d
    - Task.mips_required k / mips d * battery_consumption_rate d * 2.
Proof.
  intros Hnz. unfold process_task_locally. run.
  rewrite pydiv_returns by assumption. reflexivity.
Qed.

(** C2 fails on the code: a device whose level is 1, within its capacity of
    10, runs a task that costs 2 and is left with a level of -1. *)
Theorem process_task_locally_drives_battery_negative :
  0 <= current_battery (fst nearly_flat)
    <= battery_capacity (fst nearly_flat) /\
  result (process_task_locally 0) nearly_flat = Returned (Some (0 + 1000 / 1000)) /\
  current_battery (fst (final (process_task_locally 0) nearly_flat)) == -1 /\
  current_battery (fst (final (process_task_locally 0) nearly_flat)) < 0.
Proof. repeat split; vm_compute; congruence. Qed.

(** ** The movement model *)

(** What the two clamps of [update_location] compute lies in the region. *)
Lemma clamp_in_region (x : Q) : 0 <= pymax 0 (pymin 1000 x) <= 1000.
Proof.
  unfold pymax, pymin.
  destruct (lt x 1000) eqn:E1.
  - apply lt_true in E1. destruct (lt 0 x) eqn:E2.
    + apply lt_true in E2. split; now apply Qlt_le_weak.
    + split; [apply Qle_refl | discriminate].
  - destruct (lt 0 1000) eqn:E2.
    + split; [discriminate | apply Qle_refl].
    + vm_compute in E2. discriminate.
Qed.

(** C9 fails on the code: the module never imports [math], so on a mobile
    device the call raises [NameError] at the first use of [math.cos],
    whatever the position, the elapsed time and the angle drawn, and the
    position stays as it was; on a device that is not mobile the call
    returns at once and changes nothing. *)
Theorem update_location_raises_on_mobile_device
    (cos sin : Q -> Q) (time_elapsed angle : Q) (d : IoTDevice) :
  update_location cos sin time_elapsed angle d
  = if mobility d then (Raised (NameError "math"), d) else (Returned tt, d).
Proof.
  unfold update_location. run.
  destruct (mobility d); reflexivity.
Qed.

(** A mobile device in the middle of the region, one second, angle 0: the
    call raises and the device stays at (500, 500). *)
Example update_location_walker :
  update_location cos0 sin0 1 0 walker = (Raised (NameError "math"), walker).
Proof. reflexivity. Qed.

(** ** Computations that only read *)

Section ReadsOnly.

Context {S : Type}.

Lemma reads_only_ret {A} (a : A) : reads_only (ret (S := S) a).
Proof. intros s. reflexivity. Qed.

Lemma reads_only_raise {A} (e : exn) : reads_only (raise (S := S) (A := A) e).
Proof. intros s. reflexivity. Qed.

Lemma reads_only_gets {A} (f : S -> A) : reads_only (gets f).
Proof. intros s. reflexivity. Qed.

Lemma reads_only_pydiv (a b : Q) : reads_only (pydiv (S := S) a b).
Proof. intros s. apply pydiv_final. Qed.

Lemma reads_only_bind {A B} (m : M S A) (k : A -> M S B) :
  reads_only m -> (forall a, reads_only (k a)) -> reads_only (bind m k).
Proof.
  intros Hm Hk s. unfold bind. specialize (Hm s).
  destruct (m s) as [[a|e] s']; cbn in Hm; subst s'.
  - apply Hk.
  - reflexivity.
Qed.

End ReadsOnly.

(** Goes through a method body made of reads, divisions and branches. *)
Ltac reads :=
  unfold dev, tsk, policy, net, EdgeNode.get_utilization;
  repeat first
    [ apply reads_only_ret
    | apply reads_only_raise
    | apply reads_only_gets
    | apply reads_only_pydiv
    | assumption
    | apply reads_only_bind; [| intros ?]
    | match goal with
      | |- reads_only (if ?b then _ else _) => destruct b
      | |- reads_only (match ?o with Some _ => _ | None => _ end) => destruct o
      | |- reads_only (match ?l with [] => _ | _ :: _ => _ end) => destruct l
      end ].

Section Selection.

Variable sqrt : Q -> Q.

Lemma select_loop_reads_only (nodes : list EdgeNode.t) :
  forall best_node best_score,
    reads_only (select_loop sqrt nodes best_node best_score).
Proof.
  induction nodes as [|node rest IH]; intros best_node best_score; cbn [select_loop].
  - reads.
  - reads; apply IH.
Qed.

Lemma select_best_edge_node_reads_only :
  reads_only (_select_best_edge_node sqrt).
Proof.
  unfold _select_best_edge_node.
  apply reads_only_bind; [apply reads_only_gets | intros nodes].
  destruct nodes; [apply reads_only_ret | apply select_loop_reads_only].
Qed.

Lemma large_task_on_good_link_reads_only :
  reads_only large_task_on_good_link.
Proof. unfold large_task_on_good_link. reads. Qed.

Lemma should_offload_task_reads_only :
  reads_only (should_offload_task sqrt).
Proof.
  pose proof select_best_edge_node_reads_only.
  pose proof large_task_on_good_link_reads_only.
  unfold should_offload_task. reads.
Qed.

End Selection.

(** ** The selection of an edge node *)

Section SelectionResult.

Variable sqrt : Q -> Q.

Lemma first_minimum_snoc_keep score seen i n node :
  first_minimum score seen i n ->
  score n <= score node ->
  first_minimum score (seen ++ [node]) i n.
Proof.
  intros (Hi & Hmin & Hfirst) Hle.
  assert (Hlt : (i < List.length seen)%nat)
    by (apply nth_error_Some; congruence).
  repeat split.
  - rewrite nth_error_app1 by assumption. assumption.
  - intros j m Hj. destruct (Nat.lt_ge_cases j (List.length seen)) as [L|L].
    + rewrite nth_error_app1 in Hj by assumption. eauto.
    + rewrite nth_error_app2 in Hj by assumption.
      destruct (j - List.length seen)%nat as [|[|?]]; cbn in Hj; try discriminate.
      injection Hj as <-. assumption.
  - intros j m Hji Hj.
    rewrite nth_error_app1 in Hj by lia. eauto.
Qed.

Lemma first_minimum_snoc_new score seen node :
  (forall j m, nth_error seen j = Some m -> score node < score m) ->
  first_minimum score (seen ++ [node]) (List.length seen) node.
Proof.
  intros Hbelow. repeat split.
  - rewrite nth_error_app2 by lia. now rewrite Nat.sub_diag.
  - intros j m Hj. destruct (Nat.lt_ge_cases j (List.length seen)) as [L|L].
    + rewrite nth_error_app1 in Hj by assumption.
      apply Qlt_le_weak. eauto.
    + rewrite nth_error_app2 in Hj by assumption.
      destruct (j - List.length seen)%nat as [|[|?]]; cbn in Hj; try discriminate.
      injection Hj as <-. apply Qle_refl.
  - intros j m Hji Hj.
    rewrite nth_error_app1 in Hj by assumption. eauto.
Qed.

(** One more candidate keeps the loop's variables what [loop_state] says
    they are. *)
Lemma loop_state_step score seen best_node best_score node :
  loop_state score seen best_node best_score ->
  if lt_x (score node) best_score
  then loop_state score (seen ++ [node]) (Some node) (Fin (score node))
  else loop_state score (seen ++ [node]) best_node best_score.
Proof.
  intros Hst. destruct best_node as [n|]; cbn in Hst.
  - destruct Hst as (-> & i & Hmin). cbn [lt_x].
    destruct (lt (score node) (score n)) eqn:E.
    + apply lt_true in E. split; [reflexivity|].
      exists (List.length seen). apply first_minimum_snoc_new.
      intros j m Hj. destruct Hmin as (_ & Hall & _).
      eapply Qlt_le_trans; [exact E | eauto].
    + apply lt_false in E. split; [reflexivity|].
      exists i. now apply first_minimum_snoc_keep.
  - destruct Hst as (-> & ->). cbn [lt_x].
    split; [reflexivity|].
    exists 0%nat. apply (first_minimum_snoc_new score [] node).
    intros [|j] m Hj; discriminate.
Qed.

(** The loop returns, changes nothing, and its variables describe all the
    candidates once it is through. *)
Lemma select_loop_returns (w : World) (nodes : list EdgeNode.t) :
  forall seen best_node best_score,
    loop_state (node_score sqrt (self w)) seen best_node best_score ->
    exists best best_score',
      select_loop sqrt nodes best_node best_score w = (Returned best, w) /\
      loop_state (node_score sqrt (self w)) (seen ++ nodes) best best_score'.
Proof.
  induction nodes as [|node rest IH]; intros seen best_node best_score Hst.
  - exists best_node, best_score. rewrite app_nil_r. now split.
  - cbn [select_loop]. run.
    apply (loop_state_step _ _ _ _ node) in Hst.
    change (sqrt _ * _ + _) with (node_score sqrt (self w) node).
    destruct (lt_x (node_score sqrt (self w) node) best_score);
      apply IH in Hst; destruct Hst as (best & score' & Hrun & Hst);
      exists best, score'; rewrite <- app_assoc in Hst; now split.
Qed.

(** [_select_best_edge_node] always returns and changes nothing: [None] on
    the empty list, the first candidate of minimal score otherwise. *)
Lemma select_best_edge_node_returns (w : World) :
  exists best,
    _select_best_edge_node sqrt w = (Returned best, w) /\
    match best with
    | None => edge_nodes w = []
    | Some n =>
        exists i, first_minimum (node_score sqrt (self w)) (edge_nodes w) i n
    end.
Proof.
  unfold _select_best_edge_node. run.
  destruct (edge_nodes w) as [|node rest] eqn:E.
  - exists None. now split.
  - destruct (select_loop_returns w (node :: rest) [] None Inf)
      as (best & score' & Hrun & Hst); [now split|].
    exists best. split; [exact Hrun|].
    cbn [app] in Hst. destruct best as [n|]; cbn in Hst.
    + apply Hst.
    + destruct Hst as [Hnil _]. discriminate.
Qed.

End SelectionResult.


(** Two candidates with the same score: the one that comes first is kept. *)
Example select_best_edge_node_tie :
  result (_select_best_edge_node sqrt6)
    {| self := fresh_device; task := new_task 1 1;
       edge_nodes := [node_at (3, 4) 1 0 0.25; node_at (4, 3) 2 0 0.25;
                      node_at (0, 0) 3 0 0.5] |}
  = Returned (Some (node_at (3, 4) 1 0 0.25)).
Proof. vm_compute. reflexivity. Qed.

(** ** The decision reads and does not write *)

(** C8: [should_offload_task] is a deterministic pure function: two calls
    that receive the same device state, the same task fields and the same
    snapshot of candidate nodes return the same boolean (or raise the same
    exception), and a call leaves the device, the task and the nodes as they
    were. *)
Theorem should_offload_task_pure (sqrt : Q -> Q) (w1 w2 : World) :
  self w1 = self w2 ->
  task w1 = task w2 ->
  edge_nodes w1 = edge_nodes w2 ->
  result (should_offload_task sqrt) w1 = result (should_offload_task sqrt) w2 /\
  final (should_offload_task sqrt) w1 = w1 /\
  final (should_offload_task sqrt) w2 = w2.
Proof.
  intros Hd Hk Hn.
  assert (E : w1 = w2) by (destruct w1, w2; cbn in *; congruence).
  subst w2. repeat split; apply should_offload_task_reads_only.
Qed.

Lemma should_offload_task_pure_example :
  final (should_offload_task sqrt6) two_node_world = two_node_world.
Proof.
  apply (should_offload_task_pure sqrt6 two_node_world two_node_world);
    reflexivity.
Defined.



(** ** More on the energy model *)

(** One call with a consumption that is not negative, on a level that is
    not negative: the level does not go up and does not go below zero. *)
Lemma update_battery_step (t : Q) (d : IoTDevice) :
  0 <= battery_consumption_rate d * t ->
  0 <= current_battery d ->
  0 <= current_battery (final (update_battery t) d) <= current_battery d.
Proof.
  intros Hc H0. unfold final. rewrite update_battery_unfold. cbv zeta.
  destruct (le _ _) eqn:E; cbn.
  - split; [apply Qle_refl | assumption].
  - apply le_false in E. split; [now apply Qlt_le_weak | lra].
Qed.

Lemma update_battery_keeps_rate (t : Q) (d : IoTDevice) :
  battery_consumption_rate (final (update_battery t) d)
  = battery_consumption_rate d.
Proof.
  unfold final. rewrite update_battery_unfold. cbv zeta.
  now destruct (le _ _).
Qed.

Lemma update_battery_keeps_capacity (t : Q) (d : IoTDevice) :
  battery_capacity (final (update_battery t) d) = battery_capacity d.
Proof.
  unfold final. rewrite update_battery_unfold. cbv zeta.
  now destruct (le _ _).
Qed.

Lemma update_battery_adds_consumption (t : Q) (d : IoTDevice) :
  energy_consumed (final (update_battery t) d)
  = energy_consumed d + battery_consumption_rate d * t.
Proof.
  unfold final. rewrite update_battery_unfold. cbv zeta.
  now destruct (le _ _).
Qed.

(** What a run over intervals that are not negative keeps. *)
Lemma update_battery_run_invariant (ts : list Q) (d : IoTDevice) :
  0 <= battery_consumption_rate d ->
  Forall (fun t => 0 <= t) ts ->
  0 <= current_battery d <= battery_capacity d ->
  0 <= current_battery (update_battery_run ts d) <= current_battery d /\
  current_battery (update_battery_run ts d)
    <= battery_capacity (update_battery_run ts d) /\
  battery_capacity (update_battery_run ts d) = battery_capacity d /\
  energy_consumed d <= energy_consumed (update_battery_run ts d).
Proof.
  intros Hrate Hts. revert d Hrate.
  induction Hts as [|t ts Ht Hts IH]; intros d Hrate [H0 H1]; cbn [update_battery_run].
  - repeat split; try assumption; apply Qle_refl.
  - assert (Hc : 0 <= battery_consumption_rate d * t)
      by now apply Qmult_le_0_compat.
    pose proof (update_battery_step t d Hc H0) as [S0 S1].
    destruct (IH (final (update_battery t) d)) as ((R0 & R1) & R2 & R3 & R4).
    + now rewrite update_battery_keeps_rate.
    + split; [assumption|].
      rewrite update_battery_keeps_capacity. lra.
    + rewrite update_battery_keeps_capacity in R3.
      rewrite update_battery_adds_consumption in R4.
      repeat split; try assumption; lra.
Qed.

(** X1: with a consumption rate that is not negative, a run of
    [update_battery] calls over intervals that are not negative keeps a
    level that starts between 0 and the capacity between 0 and the capacity;
    the level never goes up, the capacity is untouched and [energy_consumed]
    never goes down. *)
Theorem update_battery_run_keeps_level_in_range (ts : list Q) (d : IoTDevice) :
  0 <= battery_consumption_rate d ->
  Forall (fun t => 0 <= t) ts ->
  0 <= current_battery d <= battery_capacity d ->
  0 <= current_battery (update_battery_run ts d) <= current_battery d /\
  current_battery (update_battery_run ts d)
    <= battery_capacity (update_battery_run ts d) /\
  battery_capacity (update_battery_run ts d) = battery_capacity d /\
  energy_consumed d <= energy_consumed (update_battery_run ts d).
Proof. apply update_battery_run_invariant. Qed.

Lemma update_battery_run_keeps_level_in_range_example :
  0 <= current_battery (update_battery_run [4; 4; 4] fresh_device)
    <= current_battery fresh_device.
Proof.
  apply (update_battery_run_keeps_level_in_range [4; 4; 4] fresh_device).
  - vm_compute. discriminate.
  - repeat constructor; vm_compute; discriminate.
  - split; vm_compute; discriminate.
Defined.

(** X2: [update_battery] never raises, and it returns [True] exactly when
    the level it leaves is strictly positive. *)
Theorem update_battery_returns_true_iff_charge_left (t : Q) (d : IoTDevice) :
  exists b : bool,
    result (update_battery t) d = Returned b /\
    (b = true <-> 0 < current_battery (final (update_battery t) d)).
Proof.
  unfold result, final. rewrite update_battery_unfold. cbv zeta.
  destruct (le _ _) eqn:E; cbn.
  - exists false. split; [reflexivity|]. split; discriminate.
  - exists true. apply le_false in E. split; [reflexivity|]. now split.
Qed.

(** X3: [update_battery] writes two attributes only: with [current_battery]
    and [energy_consumed] put back, the device is the one the call
    received. *)
Theorem update_battery_writes_two_attributes (t : Q) (d : IoTDevice) :
  set_current_battery (current_battery d)
    (set_energy_consumed (energy_consumed d) (final (update_battery t) d))
  = d.
Proof.
  unfold final. rewrite update_battery_unfold. cbv zeta.
  destruct (le _ _); destruct d; reflexivity.
Qed.


(** A call on a battery at or below zero, over an interval that is not
    negative, returns [False] and leaves the level at 0. *)
Lemma update_battery_flat_step (t : Q) (d : IoTDevice) :
  0 <= battery_consumption_rate d * t ->
  current_battery d <= 0 ->
  update_battery t d
  = (Returned false,
     set_current_battery 0
       (set_energy_consumed
          (energy_consumed d + battery_consumption_rate d * t)
          (set_current_battery
             (current_battery d - battery_consumption_rate d * t) d))).
Proof.
  intros Hc Hflat. rewrite update_battery_unfold. cbv zeta.
  assert (E : le (current_battery d - battery_consumption_rate d * t) 0 = true)
    by (apply le_true; lra).
  now rewrite E.
Qed.

Lemma update_battery_run_stays_flat (ts : list Q) :
  forall d : IoTDevice,
    0 <= battery_consumption_rate d ->
    Forall (fun t => 0 <= t) ts ->
    current_battery d == 0 ->
    current_battery (update_battery_run ts d) == 0.
Proof.
  induction ts as [|t ts IH]; intros d Hrate Hts Hflat; cbn [update_battery_run].
  - assumption.
  - inversion Hts as [|? ? Ht Hts']; subst.
    apply IH; [now rewrite update_battery_keeps_rate | assumption |].
    unfold final. rewrite update_battery_flat_step.
    + reflexivity.
    + now apply Qmult_le_0_compat.
    + rewrite Hflat. apply Qle_refl.
Qed.

(** X6: a battery at or below zero stays flat: with a consumption rate that
    is not negative, over intervals that are not negative, the next call
    returns [False] and the level is 0 after it and after every later
    call. *)
Theorem update_battery_depleted_stays_depleted
    (t : Q) (ts : list Q) (d : IoTDevice) :
  0 <= battery_consumption_rate d ->
  Forall (fun t => 0 <= t) (t :: ts) ->
  current_battery d <= 0 ->
  result (update_battery t) d = Returned false /\
  current_battery (update_battery_run (t :: ts) d) == 0.
Proof.
  intros Hrate Hts Hflat. inversion Hts as [|? ? Ht Hts']; subst.
  assert (Hc : 0 <= battery_consumption_rate d * t)
    by now apply Qmult_le_0_compat.
  split.
  - unfold result. now rewrite update_battery_flat_step.
  - cbn [update_battery_run]. apply update_battery_run_stays_flat.
    + now rewrite update_battery_keeps_rate.
    + assumption.
    + unfold final. rewrite update_battery_flat_step by assumption.
      reflexivity.
Qed.

Lemma update_battery_depleted_stays_depleted_example :
  result (update_battery 1) (fst (final (process_task_locally 0) nearly_flat))
    = Returned false /\
  current_battery
    (update_battery_run [1; 2] (fst (final (process_task_locally 0) nearly_flat)))
    == 0.
Proof.
  apply (update_battery_depleted_stays_depleted 1 [2]
           (fst (final (process_task_locally 0) nearly_flat))).
  - vm_compute. discriminate.
  - repeat constructor; vm_compute; discriminate.
  - vm_compute. discriminate.
Defined.

(** ** More on local execution *)

(** X7: on a device whose [mips] is zero, [process_task_locally] raises
    [ZeroDivisionError] before it assigns anything: the device and the task
    are left as they were. *)
Theorem process_task_locally_raises_on_zero_mips
    (current_time : Q) (d : IoTDevice) (k : Task.t) :
  mips d == 0 ->
  process_task_locally current_time (d, k)
  = (Raised ZeroDivisionError, (d, k)).
Proof.
  intros Hz. unfold process_task_locally. run.
  now rewrite pydiv_raises by assumption.
Qed.

Lemma process_task_locally_raises_on_zero_mips_example :
  process_task_locally 3 (device 0 10 10 1 false (0, 0), new_task 5 5)
  = (Raised ZeroDivisionError,
     (device 0 10 10 1 false (0, 0), new_task 5 5)).
Proof.
  apply (process_task_locally_raises_on_zero_mips 3
           (device 0 10 10 1 false (0, 0)) (new_task 5 5)).
  reflexivity.
Defined.


(** X9: [process_task_locally] writes three attributes of the device
    ([tasks_processed_locally], [current_battery], [energy_consumed]) and
    four of the task ([start_time], [completion_time], [executed_on],
    [status]), whether it returns or raises: with these put back, the device
    and the task are the ones the call received. *)
Theorem process_task_locally_writes_seven_attributes
    (current_time : Q) (d : IoTDevice) (k : Task.t) :
  let d' := fst (final (process_task_locally current_time) (d, k)) in
  let k' := snd (final (process_task_locally current_time) (d, k)) in
  set_tasks_processed_locally (tasks_processed_locally d)
    (set_current_battery (current_battery d)
       (set_energy_consumed (energy_consumed d) d')) = d /\
  Task.set_start_time (Task.start_time k)
    (Task.set_completion_time (Task.completion_time k)
       (Task.set_executed_on (Task.executed_on k)
          (Task.set_status (Task.status k) k'))) = k.
Proof.
  cbv zeta. unfold process_task_locally, pydiv. run.
  destruct (Qeq_bool (mips d) 0); cbn; destruct d, k; split; reflexivity.
Qed.

(** ** More on the decision *)

Section DecisionValue.

Variable sqrt : Q -> Q.

(** A division in one equation. *)
Lemma pydiv_value {S} (a b : Q) (s : S) :
  pydiv a b s
  = (if Qeq_bool b 0 then Raised ZeroDivisionError else Returned (a / b), s).
Proof. unfold pydiv. now destruct (Qeq_bool b 0). Qed.

(** What the third rule returns; it never raises, its divisor being 100. *)
Lemma large_task_on_good_link_value (w : World) :
  large_task_on_good_link w
  = (Returned
       (gt (Task.input_size (task w))
           (threshold_task_size (offloading_policy (self w)))
        && gt (reliability (network_params (self w))
               * (bandwidth_mbps (network_params (self w)) / 100))
              (threshold_network_quality (offloading_policy (self w)))), w).
Proof.
  unfold large_task_on_good_link. run.
  destruct (gt _ _); [|reflexivity].
  now rewrite pydiv_returns by discriminate.
Qed.

(** The whole call as one expression over the node the selection chose: the
    tests in the order the code makes them, each division raising on a zero
    divisor. *)
Lemma should_offload_task_value (w : World) (best : option EdgeNode.t) :
  _select_best_edge_node sqrt w = (Returned best, w) ->
  let d := self w in
  let n := network_params d in
  let p := offloading_policy d in
  let mr := Task.mips_required (task w) in
  let size := Task.input_size (task w) in
  should_offload_task sqrt w
  = (if Qeq_bool (battery_capacity d) 0 then Raised ZeroDivisionError
     else if lt (current_battery d / battery_capacity d)
                (threshold_battery_level p) then Returned true
     else if gt mr (mips d) then Returned true
     else if gt size (threshold_task_size p)
             && gt (reliability n * (bandwidth_mbps n / 100))
                   (threshold_network_quality p) then Returned true
     else if Qeq_bool (mips d) 0 then Raised ZeroDivisionError
     else match best with
          | None => Returned false
          | Some node =>
              if Qeq_bool (bandwidth_mbps n * 125000) 0
              then Raised ZeroDivisionError
              else if Qeq_bool (EdgeNode.mips node) 0
              then Raised ZeroDivisionError
              else
                let local_time := mr / mips d in
                let transfer_time := size / (bandwidth_mbps n * 125000) in
                Returned
                  (lt (weight_energy p * (transfer_time * energy_consumption n)
                       + weight_latency p
                         * (latency_ms n / 1000 + transfer_time
                            + mr / EdgeNode.mips node)
                       + weight_cost p * (mr * EdgeNode.cost_per_mips node))
                      (weight_energy p
                         * (local_time * battery_consumption_rate d * 2)
                       + weight_latency p * local_time))
          end, w).
Proof.
  intros Hbest. cbv zeta. unfold should_offload_task. run.
  rewrite pydiv_value.
  destruct (Qeq_bool (battery_capacity (self w)) 0); [reflexivity|].
  cbv beta iota.
  destruct (lt (current_battery (self w) / battery_capacity (self w)) _);
    [reflexivity|].
  destruct (gt (Task.mips_required (task w)) (mips (self w))); [reflexivity|].
  rewrite large_task_on_good_link_value.
  destruct (gt (Task.input_size (task w)) _ && _); [reflexivity|].
  rewrite pydiv_value.
  destruct (Qeq_bool (mips (self w)) 0) eqn:Em; [reflexivity|].
  cbv beta iota. rewrite Hbest.
  destruct best as [node|]; [|reflexivity].
  rewrite pydiv_value. change (Qeq_bool 1000 0) with false. cbv beta iota.
  rewrite pydiv_value.
  destruct (Qeq_bool (bandwidth_mbps (network_params (self w)) * 125000) 0);
    [reflexivity|].
  cbv beta iota. rewrite pydiv_value.
  destruct (Qeq_bool (EdgeNode.mips node) 0); [reflexivity|].
  cbv beta iota. rewrite pydiv_value, Em. reflexivity.
Qed.

End DecisionValue.

Section DecisionFacts.

Variable sqrt : Q -> Q.

(** The call returns its result through the state it received. *)
Lemma select_result_run (w : World) (best : option EdgeNode.t) :
  result (_select_best_edge_node sqrt) w = Returned best ->
  _select_best_edge_node sqrt w = (Returned best, w).
Proof.
  intros Hres.
  destruct (select_best_edge_node_returns sqrt w) as (best' & Hrun & _).
  unfold result in Hres. rewrite Hrun in Hres |- *. cbn in Hres.
  now injection Hres as ->.
Qed.

End DecisionFacts.

(** X10: on a device whose [battery_capacity] is zero, [should_offload_task]
    raises [ZeroDivisionError] for every task and every list of candidate
    nodes, and changes nothing. *)
Theorem should_offload_task_raises_on_zero_capacity
    (sqrt : Q -> Q) (d : IoTDevice) (k : Task.t) (nodes : list EdgeNode.t) :
  battery_capacity d == 0 ->
  should_offload_task sqrt {| self := d; task := k; edge_nodes := nodes |}
  = (Raised ZeroDivisionError,
     {| self := d; task := k; edge_nodes := nodes |}).
Proof. intros Hz. now apply zero_capacity_raises. Qed.

Lemma should_offload_task_raises_on_zero_capacity_example :
  should_offload_task sqrt6 no_battery_world
  = (Raised ZeroDivisionError, no_battery_world).
Proof.
  apply (should_offload_task_raises_on_zero_capacity sqrt6
           (self no_battery_world) (task no_battery_world) []).
  reflexivity.
Defined.






(** X16: the decision looks at the candidates through the selected node
    only: the call returns (or raises) on the whole list what it returns on
    the list that holds the selected node alone. *)
Theorem should_offload_task_sees_selected_node_only
    (sqrt : Q -> Q) (d : IoTDevice) (k : Task.t) (nodes : list EdgeNode.t)
    (node : EdgeNode.t) :
  result (_select_best_edge_node sqrt)
    {| self := d; task := k; edge_nodes := nodes |} = Returned (Some node) ->
  result (should_offload_task sqrt)
    {| self := d; task := k; edge_nodes := nodes |}
  = result (should_offload_task sqrt)
      {| self := d; task := k; edge_nodes := [node] |}.
Proof.
  intros Hsel. apply select_result_run in Hsel.
  assert (Hone : _select_best_edge_node sqrt
                   {| self := d; task := k; edge_nodes := [node] |}
                 = (Returned (Some node),
                    {| self := d; task := k; edge_nodes := [node] |})).
  { destruct (select_best_edge_node_returns sqrt
                {| self := d; task := k; edge_nodes := [node] |})
      as (best & Hrun & Hbest).
    rewrite Hrun. destruct best as [m|]; [|discriminate Hbest].
    destruct Hbest as (i & Hi & _). cbn in Hi.
    destruct i as [|[|i]]; cbn in Hi; try discriminate.
    now injection Hi as ->. }
  unfold result.
  rewrite (should_offload_task_value sqrt _ _ Hsel).
  rewrite (should_offload_task_value sqrt _ _ Hone).
  reflexivity.
Qed.

Lemma should_offload_task_sees_selected_node_only_example :
  result (should_offload_task sqrt6) two_node_world
  = result (should_offload_task sqrt6)
      {| self := self two_node_world; task := task two_node_world;
         edge_nodes := [node_at (3, 4) 10000 0.001 0.1] |}.
Proof.
  apply (should_offload_task_sees_selected_node_only sqrt6
           (self two_node_world) (task two_node_world)
           (edge_nodes two_node_world) (node_at (3, 4) 10000 0.001 0.1)).
  vm_compute. reflexivity.
Defined.



(** ** More on the selection *)

Section SelectionFacts.

Variable sqrt : Q -> Q.


(** There is one first minimum. *)
Lemma first_minimum_unique score nodes i n j m :
  first_minimum score nodes i n ->
  first_minimum score nodes j m ->
  i = j /\ n = m.
Proof.
  intros (Hi & Hmin & Hfirst) (Hj & Hmin' & Hfirst').
  assert (i = j) as ->.
  { destruct (Nat.lt_trichotomy i j) as [L|[E|L]]; [|assumption|].
    - exfalso. apply (Qlt_not_le _ _ (Hfirst' i n L Hi)). eauto.
    - exfalso. apply (Qlt_not_le _ _ (Hfirst j m L Hj)). eauto. }
  split; congruence.
Qed.

(** What the selection returns on a list that has a first minimum. *)
Lemma select_returns_first_minimum (d : IoTDevice) (k : Task.t)
    (nodes : list EdgeNode.t) (i : nat) (n : EdgeNode.t) :
  first_minimum (node_score sqrt d) nodes i n ->
  result (_select_best_edge_node sqrt)
    {| self := d; task := k; edge_nodes := nodes |} = Returned (Some n).
Proof.
  intros Hmin.
  destruct (select_best_edge_node_returns sqrt
              {| self := d; task := k; edge_nodes := nodes |})
    as (best & Hrun & Hbest).
  unfold result. rewrite Hrun. cbn [fst self edge_nodes] in *.
  destruct best as [m|].
  - destruct Hbest as [j Hj].
    now destruct (first_minimum_unique _ _ _ _ _ _ Hj Hmin) as [_ ->].
  - subst nodes. destruct Hmin as (Hi & _). destruct i; discriminate.
Qed.

(** Of two candidates, the one of strictly lower score is selected, whether
    it comes first or second. *)
Lemma select_lower_score_of_two (d : IoTDevice) (k : Task.t)
    (a b : EdgeNode.t) :
  node_score sqrt d a < node_score sqrt d b ->
  result (_select_best_edge_node sqrt)
    {| self := d; task := k; edge_nodes := [a; b] |} = Returned (Some a) /\
  result (_select_best_edge_node sqrt)
    {| self := d; task := k; edge_nodes := [b; a] |} = Returned (Some a).
Proof.
  intros Hlt. split.
  - apply (select_returns_first_minimum d k [a; b] 0). repeat split.
    + intros [|[|j]] m Hj; cbn in Hj; try (destruct j; discriminate);
        injection Hj as <-; [apply Qle_refl | now apply Qlt_le_weak].
    + intros j m Hj. lia.
  - apply (select_returns_first_minimum d k [b; a] 1). repeat split.
    + intros [|[|j]] m Hj; cbn in Hj; try (destruct j; discriminate);
        injection Hj as <-; [now apply Qlt_le_weak | apply Qle_refl].
    + intros [|j] m Hlt' Hj; [|lia]. cbn in Hj. now injection Hj as <-.
Qed.

End SelectionFacts.


Section SelectionOfBatches.

Variable sqrt : Q -> Q.

(** The first minimum behind a selected node. *)
Lemma selected_is_first_minimum (d : IoTDevice) (k : Task.t)
    (nodes : list EdgeNode.t) (n : EdgeNode.t) :
  result (_select_best_edge_node sqrt)
    {| self := d; task := k; edge_nodes := nodes |} = Returned (Some n) ->
  exists i, first_minimum (node_score sqrt d) nodes i n.
Proof.
  intros Hsel.
  destruct (select_best_edge_node_returns sqrt
              {| self := d; task := k; edge_nodes := nodes |})
    as (best & Hrun & Hbest).
  unfold result in Hsel. rewrite Hrun in Hsel. cbn in Hsel, Hbest.
  injection Hsel as ->. exact Hbest.
Qed.

Lemma first_minimum_app_left score l1 l2 i n :
  first_minimum score l1 i n ->
  (forall j m, nth_error l2 j = Some m -> score n <= score m) ->
  first_minimum score (l1 ++ l2) i n.
Proof.
  intros (Hi & Hmin & Hfirst) Hrest.
  assert (Hlt : (i < List.length l1)%nat)
    by (apply nth_error_Some; congruence).
  repeat split.
  - now rewrite nth_error_app1.
  - intros j m Hj. destruct (Nat.lt_ge_cases j (List.length l1)) as [L|L].
    + rewrite nth_error_app1 in Hj by assumption. eauto.
    + rewrite nth_error_app2 in Hj by assumption. eauto.
  - intros j m Hji Hj. rewrite nth_error_app1 in Hj by lia. eauto.
Qed.

Lemma first_minimum_app_right score l1 l2 i n :
  first_minimum score l2 i n ->
  (forall j m, nth_error l1 j = Some m -> score n < score m) ->
  first_minimum score (l1 ++ l2) (List.length l1 + i) n.
Proof.
  intros (Hi & Hmin & Hfirst) Hrest. repeat split.
  - rewrite nth_error_app2 by lia.
    now replace (List.length l1 + i - List.length l1)%nat with i by lia.
  - intros j m Hj. destruct (Nat.lt_ge_cases j (List.length l1)) as [L|L].
    + rewrite nth_error_app1 in Hj by assumption.
      apply Qlt_le_weak. eauto.
    + rewrite nth_error_app2 in Hj by assumption. eauto.
  - intros j m Hji Hj. destruct (Nat.lt_ge_cases j (List.length l1)) as [L|L].
    + rewrite nth_error_app1 in Hj by assumption. eauto.
    + rewrite nth_error_app2 in Hj by assumption.
      apply (Hfirst (j - List.length l1)%nat); [lia | assumption].
Qed.

End SelectionOfBatches.

(** X20: selection goes batch by batch: on two lists put end to end, the
    node selected is the one selected between the two nodes that each list
    yields on its own. *)
Theorem select_of_concatenation
    (sqrt : Q -> Q) (d : IoTDevice) (k : Task.t)
    (l1 l2 : list EdgeNode.t) (b1 b2 : EdgeNode.t) :
  let select nodes :=
    result (_select_best_edge_node sqrt)
      {| self := d; task := k; edge_nodes := nodes |} in
  select l1 = Returned (Some b1) ->
  select l2 = Returned (Some b2) ->
  select (l1 ++ l2) = select [b1; b2].
Proof.
  cbv zeta. intros H1 H2.
  apply selected_is_first_minimum in H1, H2.
  destruct H1 as [i1 M1], H2 as [i2 M2].
  destruct (Qlt_le_dec (node_score sqrt d b2) (node_score sqrt d b1)) as [L|L].
  - destruct (select_lower_score_of_two sqrt d k b2 b1 L) as [_ ->].
    apply (select_returns_first_minimum sqrt d k (l1 ++ l2)
             (List.length l1 + i2)).
    apply first_minimum_app_right; [assumption|].
    intros j m Hj. destruct M1 as (_ & Hmin & _).
    eapply Qlt_le_trans; [exact L | eauto].
  - rewrite (select_returns_first_minimum sqrt d k [b1; b2] 0 b1).
    + apply (select_returns_first_minimum sqrt d k (l1 ++ l2) i1).
      apply first_minimum_app_left; [assumption|].
      intros j m Hj. destruct M2 as (_ & Hmin & _).
      eapply Qle_trans; [exact L | eauto].
    + repeat split.
      * intros [|[|j]] m Hj; cbn in Hj; try (destruct j; discriminate);
          injection Hj as <-; [apply Qle_refl | assumption].
      * intros j m Hj. lia.
Qed.

Lemma select_of_concatenation_example :
  result (_select_best_edge_node sqrt6)
    {| self := fresh_device; task := new_task 1 1;
       edge_nodes := [node_at (3, 4) 1 0 0.5; node_at (0, 0) 2 0 0.25]
                     ++ [node_at (6, 8) 3 0 0.1; node_at (0, 5) 4 0 0.5] |}
  = result (_select_best_edge_node sqrt6)
      {| self := fresh_device; task := new_task 1 1;
         edge_nodes := [node_at (0, 0) 2 0 0.25; node_at (6, 8) 3 0 0.1] |}.
Proof.
  apply (select_of_concatenation sqrt6 fresh_device (new_task 1 1)
           [node_at (3, 4) 1 0 0.5; node_at (0, 0) 2 0 0.25]
           [node_at (6, 8) 3 0 0.1; node_at (0, 5) 4 0 0.5]
           (node_at (0, 0) 2 0 0.25) (node_at (6, 8) 3 0 0.1));
    vm_compute; reflexivity.
Defined.

(** ** The status report *)


(** X22: on a device with a positive capacity whose level lies between 0
    and the capacity, [get_status] returns a report whose [battery_level]
    lies between 0 and 1 and whose counters are the device's. *)
Theorem get_status_battery_level_in_unit_interval (d : IoTDevice) :
  0 < battery_capacity d ->
  0 <= current_battery d <= battery_capacity d ->
  exists st,
    result get_status d = Returned st /\
    0 <= Status.battery_level st <= 1 /\
    Status.tasks_generated st = tasks_generated d /\
    Status.tasks_offloaded st = tasks_offloaded d /\
    Status.tasks_local st = tasks_processed_locally d /\
    Status.energy_consumed st = energy_consumed d.
Proof.
  intros Hcap [H0 H1].
  assert (Hnz : ~ battery_capacity d == 0) by lra.
  unfold get_status. run. rewrite pydiv_returns by assumption. cbn.
  eexists. split; [reflexivity|]. cbn. repeat split.
  - apply Qle_shift_div_l; [assumption | lra].
  - apply Qle_shift_div_r; [assumption | lra].
Qed.

Lemma get_status_battery_level_in_unit_interval_example :
  exists st,
    result get_status (device 1000 1000 100 1 false (0, 0)) = Returned st /\
    0 <= Status.battery_level st <= 1 /\
    Status.tasks_generated st = 0%Z /\
    Status.tasks_offloaded st = 0%Z /\
    Status.tasks_local st = 0%Z /\
    Status.energy_consumed st = 0.
Proof.
  apply (get_status_battery_level_in_unit_interval
           (device 1000 1000 100 1 false (0, 0))).
  - reflexivity.
  - split; vm_compute; discriminate.
Defined.

(** X23: the report and the decision agree on the battery: when
    [get_status] reports a [battery_level] strictly below
    [threshold_battery_level], [should_offload_task] returns [True] for
    every task and every list of candidate nodes. *)
Theorem reported_low_battery_forces_offload
    (sqrt : Q -> Q) (d : IoTDevice) (k : Task.t) (nodes : list EdgeNode.t)
    (st : Status.t) :
  result get_status d = Returned st ->
  Status.battery_level st < threshold_battery_level (offloading_policy d) ->
  result (should_offload_task sqrt)
    {| self := d; task := k; edge_nodes := nodes |}
  = Returned true.
Proof.
  intros Hst Hlow. unfold get_status, result in Hst.
  cbv [bind gets ret] in Hst. rewrite pydiv_value in Hst.
  destruct (Qeq_bool (battery_capacity d) 0) eqn:E; [discriminate Hst|].
  injection Hst as <-. cbn [Status.battery_level] in Hlow.
  apply Qeq_bool_neq in E.
  unfold result. now rewrite energy_guard_fires.
Qed.

Lemma reported_low_battery_forces_offload_example :
  result (should_offload_task sqrt6) low_battery_world = Returned true.
Proof.
  apply (reported_low_battery_forces_offload sqrt6 (self low_battery_world)
           (task low_battery_world) []
           {| Status.device_id := 7; Status.type := "smartphone";
              Status.battery_level := 100 / 1000; Status.location := (0, 0);
              Status.tasks_generated := 0; Status.tasks_offloaded := 0;
              Status.tasks_local := 0; Status.energy_consumed := 0 |}).
  - reflexivity.
  - vm_compute. reflexivity.
Defined.

(** ** Task generation *)

(** [str] writes different integers differently. *)
Lemma str_injective (a b : Z) : str a = str b -> a = b.
Proof.
  unfold str. intros H.
  assert (Hread : forall z,
            NilZero.int_of_string (NilZero.string_of_int (Z.to_int z))
            = Some (Z.to_int z)).
  { intros z. apply NilZero.isi; destruct z; cbn; try discriminate;
      intros [= E]; exact (DecimalPos.Unsigned.to_uint_nonnil _ E). }
  pose proof (Hread a) as Ha. rewrite H, Hread in Ha.
  injection Ha as Ha.
  rewrite <- (DecimalZ.of_to a), <- (DecimalZ.of_to b). now rewrite Ha.
Qed.

Lemma append_cancel_prefix (p a b : string) :
  (p ++ a)%string = (p ++ b)%string -> a = b.
Proof.
  induction p as [|c p IH]; cbn; intros H; [assumption|].
  injection H as H. now apply IH.
Qed.

(** [random.choice] returns an element of the sequence. *)
Lemma choice_member {A} (drawn : nat) (seq : list A) (first : A) :
  seq <> [] -> In (choice drawn seq first) seq.
Proof.
  intros Hne. unfold choice. apply nth_In.
  apply Nat.mod_upper_bound. destruct seq; [contradiction | discriminate].
Qed.

(** A call of [generate_task] in one equation. *)
Lemma generate_task_unfold (time sample : Q) (drawn : nat) (d : IoTDevice) :
  generate_task time sample drawn d =
  if le sample (task_generation_rate d) then
    (Returned
       (Some
          {| NewTask.task_id :=
               (str (device_id d) ++ "_" ++ str (tasks_generated d))%string;
             NewTask.task_type :=
               (if lt (mips d) 1000 then "lightweight"
                else if lt (mips d) 3000
                then choice drawn ["lightweight"; "medium"] "lightweight"
                else choice drawn ["lightweight"; "medium"; "intensive"]
                       "lightweight")%string;
             NewTask.device_id := device_id d;
             NewTask.simulation_time := time |}),
     set_tasks_generated (tasks_generated d + 1)%Z d)
  else (Returned None, d).
Proof.
  unfold generate_task. run.
  now destruct (le sample (task_generation_rate d)).
Qed.

(** X24: the type of a generated task follows the device's rate: it is
    always one of lightweight, medium and intensive; below 1000 MIPS it is
    lightweight; below 3000 MIPS it is never intensive. *)
Theorem generate_task_type_follows_capability
    (time sample : Q) (drawn : nat) (d : IoTDevice) (new : NewTask.t) :
  result (generate_task time sample drawn) d = Returned (Some new) ->
  In (NewTask.task_type new) ["lightweight"; "medium"; "intensive"]%string /\
  (mips d < 1000 -> NewTask.task_type new = "lightweight"%string) /\
  (mips d < 3000 -> NewTask.task_type new <> "intensive"%string).
Proof.
  unfold result. rewrite generate_task_unfold.
  destruct (le sample (task_generation_rate d)); [|discriminate].
  cbn [fst]. intros [= <-]. cbn [NewTask.task_type].
  destruct (lt (mips d) 1000) eqn:E1.
  - repeat split; [cbn; tauto | discriminate].
  - apply lt_false in E1. destruct (lt (mips d) 3000) eqn:E2.
    + pose proof (choice_member drawn ["lightweight"; "medium"]%string
                    "lightweight"%string) as Hin.
      destruct Hin as [<-|[<-|[]]]; try discriminate.
      all: repeat split; try (cbn; tauto); try discriminate.
      all: intros H; exfalso; exact (Qlt_not_le _ _ H E1).
    + apply lt_false in E2.
      pose proof (choice_member drawn
                    ["lightweight"; "medium"; "intensive"]%string
                    "lightweight"%string) as Hin.
      destruct Hin as [<-|[<-|[<-|[]]]]; try discriminate.
      all: repeat split; try (cbn; tauto).
      all: intros H; exfalso;
        first [exact (Qlt_not_le _ _ H E1) | exact (Qlt_not_le _ _ H E2)].
Qed.

Lemma generate_task_type_follows_capability_example :
  In "medium"%string ["lightweight"; "medium"; "intensive"]%string /\
  (mips (device 2500 10 10 1 false (0, 0)) < 1000 ->
   "medium"%string = "lightweight"%string) /\
  (mips (device 2500 10 10 1 false (0, 0)) < 3000 ->
   "medium"%string <> "intensive"%string).
Proof.
  apply (generate_task_type_follows_capability 0 0.25 1
           (device 2500 10 10 1 false (0, 0))
           {| NewTask.task_id := "7_0"; NewTask.task_type := "medium";
              NewTask.device_id := 7; NewTask.simulation_time := 0 |}).
  reflexivity.
Defined.

(** One tick of a run: no task and the same device, or a task numbered by
    the counter and the counter one higher. *)
Lemma generate_task_run_step
    (time sample : Q) (drawn : nat) (ticks : list (Q * Q * nat))
    (d : IoTDevice) :
  generate_task_run ((time, sample, drawn) :: ticks) d
    = generate_task_run ticks d \/
  exists new,
    NewTask.task_id new
      = (str (device_id d) ++ "_" ++ str (tasks_generated d))%string /\
    generate_task_run ((time, sample, drawn) :: ticks) d
    = (new :: fst (generate_task_run ticks
                     (set_tasks_generated (tasks_generated d + 1)%Z d)),
       snd (generate_task_run ticks
              (set_tasks_generated (tasks_generated d + 1)%Z d))).
Proof.
  cbn [generate_task_run]. unfold result, final.
  rewrite generate_task_unfold.
  destruct (le sample (task_generation_rate d)); cbn [fst snd].
  - right. eexists. split; [|reflexivity]. reflexivity.
  - left. reflexivity.
Qed.

(** The tasks of a run are numbered from the counter upwards. *)
Lemma generate_task_run_numbers (ticks : list (Q * Q * nat)) :
  forall (d : IoTDevice) (new : NewTask.t),
    In new (fst (generate_task_run ticks d)) ->
    exists n : Z,
      (tasks_generated d <= n)%Z /\
      NewTask.task_id new = (str (device_id d) ++ "_" ++ str n)%string.
Proof.
  induction ticks as [|[[time sample] drawn] ticks IH]; intros d new Hin.
  - contradiction.
  - destruct (generate_task_run_step time sample drawn ticks d)
      as [Hrun|(first & Hid & Hrun)]; rewrite Hrun in Hin.
    + now apply IH.
    + cbn [fst] in Hin. destruct Hin as [<-|Hin].
      * exists (tasks_generated d). split; [lia | assumption].
      * apply IH in Hin. destruct Hin as (n & Hn & Hid').
        cbn in Hn, Hid'. exists n. split; [lia | assumption].
Qed.

(** X25: the tasks a device generates over a run of ticks carry pairwise
    different identifiers, whatever the draws. *)
Theorem generate_task_run_ids_distinct
    (ticks : list (Q * Q * nat)) (d : IoTDevice) :
  NoDup (map NewTask.task_id (fst (generate_task_run ticks d))).
Proof.
  revert d. induction ticks as [|[[time sample] drawn] ticks IH]; intros d.
  - constructor.
  - destruct (generate_task_run_step time sample drawn ticks d)
      as [Hrun|(first & Hid & Hrun)]; rewrite Hrun.
    + apply IH.
    + cbn [fst map]. constructor; [|apply IH].
      intros Hin. apply in_map_iff in Hin.
      destruct Hin as (later & Hsame & Hin).
      apply generate_task_run_numbers in Hin.
      destruct Hin as (n & Hn & Hid'). cbn in Hn, Hid'.
      rewrite Hid, Hid' in Hsame.
      apply append_cancel_prefix in Hsame.
      apply (append_cancel_prefix "_") in Hsame.
      apply str_injective in Hsame. lia.
Qed.

(** X26: over a run of ticks [generate_task] writes the counter
    [tasks_generated] and nothing else, the battery included, and the
    counter grows by the number of tasks generated. *)
Theorem generate_task_run_counts_tasks
    (ticks : list (Q * Q * nat)) (d : IoTDevice) :
  tasks_generated (snd (generate_task_run ticks d))
    = (tasks_generated d
       + Z.of_nat (List.length (fst (generate_task_run ticks d))))%Z /\
  set_tasks_generated (tasks_generated d) (snd (generate_task_run ticks d))
    = d.
Proof.
  revert d. induction ticks as [|[[time sample] drawn] ticks IH]; intros d.
  - cbn. split; [lia | now destruct d].
  - destruct (generate_task_run_step time sample drawn ticks d)
      as [Hrun|(first & Hid & Hrun)]; rewrite Hrun.
    + apply IH.
    + cbn [fst snd List.length].
      destruct (IH (set_tasks_generated (tasks_generated d + 1)%Z d))
        as [Hcount Hframe].
      split.
      * rewrite Hcount. cbn [tasks_generated set_tasks_generated]. lia.
      * transitivity
          (set_tasks_generated (tasks_generated d)
             (set_tasks_generated (tasks_generated d + 1)%Z d));
          [|now destruct d].
        rewrite <- Hframe at 2. reflexivity.
Qed.

(** Three ticks on a fresh device: the first and the third draw generate a
    task. *)
Example generate_task_run_three_ticks :
  map NewTask.task_id
    (fst (generate_task_run [(0, 0.1, 0%nat); (1, 0.9, 0%nat); (2, 0.5, 1%nat)]
            fresh_device))
  = ["7_0"; "7_1"]%string.
Proof. vm_compute. reflexivity. Qed.

(** ** Construction *)

Lemma find_none_when_absent {A} (f : A -> bool) (l : list A) :
  (forall a, In a l -> f a = false) -> find f l = None.
Proof.
  induction l as [|a l IH]; intros H; cbn; [reflexivity|].
  rewrite (H a) by now left. apply IH. intros b Hb. apply H. now right.
Qed.

(** The entry the search returns is one of the entries. *)
Lemma next_named_member (wanted : string) (types : list DeviceType.t)
    (default : DeviceType.t) :
  In default types -> In (next_named wanted types default) types.
Proof.
  intros Hd. unfold next_named.
  destruct (find _ types) as [t|] eqn:E; [|assumption].
  now apply find_some in E.
Qed.

(** The entry the constructor builds from, in either branch. *)
Lemma init_unfold (id : Z) (config : Config.t) (device_type : option string)
    (drawn : nat) (x y : Q) (first : DeviceType.t) (rest : list DeviceType.t) :
  Config.types config = first :: rest ->
  exists t,
    In t (Config.types config) /\
    (forall wanted,
       device_type = Some wanted ->
       t = next_named wanted (Config.types config) first) /\
    __init__ id config device_type drawn x y
    = match dict_lookup (Config.technologies config)
              (DeviceType.wireless_technology t) with
      | None => inl (KeyError (DeviceType.wireless_technology t))
      | Some params =>
          inr {| device_id := id;
                 device_type := DeviceType.name t;
                 mips := DeviceType.mips t;
                 ram := DeviceType.ram t;
                 battery_capacity := DeviceType.battery_capacity t;
                 current_battery := DeviceType.battery_capacity t;
                 battery_consumption_rate :=
                   DeviceType.battery_consumption_rate t;
                 task_generation_rate := DeviceType.task_generation_rate t;
                 wireless_tech := DeviceType.wireless_technology t;
                 mobility := DeviceType.mobility t;
                 location := (x, y);
                 connected_edge_node := None;
                 network_params := params;
                 offloading_policy := Config.offloading_policy config;
                 tasks_generated := 0;
                 tasks_offloaded := 0;
                 tasks_processed_locally := 0;
                 energy_consumed := 0 |}
      end.
Proof.
  intros Htypes. unfold __init__. rewrite Htypes.
  destruct device_type as [wanted|].
  - exists (next_named wanted (first :: rest) first). repeat split.
    + apply next_named_member. now left.
    + now intros ? [= ->].
  - exists (choice drawn (first :: rest) first). repeat split.
    + apply choice_member. discriminate.
    + discriminate.
Qed.

(** X27: a requested type that the configuration lacks raises nothing: the
    device is built from the first configured type, on the parameters of
    that type's technology. *)
Theorem init_falls_back_to_first_type
    (id : Z) (config : Config.t) (wanted : string) (drawn : nat) (x y : Q)
    (first : DeviceType.t) (rest : list DeviceType.t)
    (params : NetworkParams) :
  Config.types config = first :: rest ->
  (forall t, In t (Config.types config) -> DeviceType.name t <> wanted) ->
  dict_lookup (Config.technologies config)
    (DeviceType.wireless_technology first) = Some params ->
  exists d,
    __init__ id config (Some wanted) drawn x y = inr d /\
    device_type d = DeviceType.name first /\
    mips d = DeviceType.mips first /\
    battery_capacity d = DeviceType.battery_capacity first /\
    wireless_tech d = DeviceType.wireless_technology first /\
    network_params d = params.
Proof.
  intros Htypes Habsent Hparams.
  destruct (init_unfold id config (Some wanted) drawn x y first rest Htypes)
    as (t & _ & Ht & Hrun).
  assert (t = first) as ->.
  { rewrite (Ht wanted eq_refl). unfold next_named.
    rewrite find_none_when_absent; [reflexivity|].
    intros a Ha. apply String.eqb_neq. now apply Habsent. }
  rewrite Hparams in Hrun. eexists. split; [exact Hrun|]. repeat split.
Qed.

Lemma init_falls_back_to_first_type_example :
  exists d,
    __init__ 3 {| Config.types := [phone_type; sensor_type];
                  Config.technologies := [("WiFi"%string, wifi)];
                  Config.offloading_policy := default_policy |}
      (Some "drone"%string) 0 1 2 = inr d /\
    device_type d = "smartphone"%string /\
    mips d = 2500 /\
    battery_capacity d = 4000 /\
    wireless_tech d = "WiFi"%string /\
    network_params d = wifi.
Proof.
  apply (init_falls_back_to_first_type 3
           {| Config.types := [phone_type; sensor_type];
              Config.technologies := [("WiFi"%string, wifi)];
              Config.offloading_policy := default_policy |}
           "drone" 0 1 2 phone_type [sensor_type] wifi).
  - reflexivity.
  - intros t [<-|[<-|[]]]; discriminate.
  - reflexivity.
Defined.

(** X28: a requested type that the configuration has is the type of the
    device the constructor returns. *)
Theorem init_honours_requested_type
    (id : Z) (config : Config.t) (wanted : string) (drawn : nat) (x y : Q)
    (d : IoTDevice) :
  (exists t, In t (Config.types config) /\ DeviceType.name t = wanted) ->
  __init__ id config (Some wanted) drawn x y = inr d ->
  device_type d = wanted.
Proof.
  intros (t & Hin & Hname) Hrun.
  destruct (Config.types config) as [|first rest] eqn:Htypes;
    [contradiction|].
  destruct (init_unfold id config (Some wanted) drawn x y first rest Htypes)
    as (t' & _ & Ht' & Hrun').
  rewrite Hrun in Hrun'. rewrite (Ht' wanted eq_refl) in Hrun'. clear Ht'.
  rewrite Htypes in Hrun'. unfold next_named in Hrun'.
  destruct (find _ (first :: rest)) as [found|] eqn:E.
  - apply find_some in E. destruct E as [_ E]. apply String.eqb_eq in E.
    destruct (dict_lookup _ _); [|discriminate].
    injection Hrun' as ->. exact E.
  - exfalso. apply (find_none _ _ E) in Hin.
    apply String.eqb_neq in Hin. contradiction.
Qed.

Lemma init_honours_requested_type_example :
  device_type
    (device_on wifi 2500 4000 4000 0.5) = "smartphone"%string.
Proof.
  apply (init_honours_requested_type 7
           {| Config.types := [sensor_type; phone_type];
              Config.technologies := [("WiFi"%string, wifi)];
              Config.offloading_policy := default_policy |}
           "smartphone" 0 0 0).
  - exists phone_type. split; [cbn; tauto | reflexivity].
  - reflexivity.
Defined.

(** X29: the constructor fails in two ways only: with [IndexError] when the
    configuration lists no device type, and with [KeyError] on the wireless
    technology of a configured type when the configuration has no parameters
    for that technology. *)
Theorem init_fails_on_empty_types_or_missing_technology
    (id : Z) (config : Config.t) (device_type : option string) (drawn : nat)
    (x y : Q) (e : init_error) :
  __init__ id config device_type drawn x y = inl e ->
  (e = IndexError /\ Config.types config = []) \/
  exists t,
    In t (Config.types config) /\
    e = KeyError (DeviceType.wireless_technology t) /\
    dict_lookup (Config.technologies config)
      (DeviceType.wireless_technology t) = None.
Proof.
  intros Hrun.
  destruct (Config.types config) as [|first rest] eqn:Htypes.
  - left. unfold __init__ in Hrun. rewrite Htypes in Hrun.
    now injection Hrun as <-.
  - right.
    destruct (init_unfold id config device_type drawn x y first rest Htypes)
      as (t & Hin & _ & Hrun').
    rewrite Hrun in Hrun'. rewrite Htypes in Hin. exists t.
    destruct (dict_lookup _ _); [discriminate|].
    injection Hrun' as ->. repeat split. assumption.
Qed.

Lemma init_fails_on_empty_types_or_missing_technology_example :
  (KeyError "BLE" = IndexError /\ Config.types small_config = []) \/
  exists t,
    In t (Config.types small_config) /\
    KeyError "BLE" = KeyError (DeviceType.wireless_technology t) /\
    dict_lookup (Config.technologies small_config)
      (DeviceType.wireless_technology t) = None.
Proof.
  apply (init_fails_on_empty_types_or_missing_technology 1 small_config
           (Some "sensor"%string) 0 0 0 (KeyError "BLE")).
  reflexivity.
Defined.


(** ** The order of doubles *)

Ltac order_cases :=
  repeat match goal with
  | x : spec_float |- _ => destruct x as [[]|[]| |[] ? ?]
  end;
  cbn; try congruence;
  change (Pos.compare_cont Eq) with Pos.compare;
  repeat match goal with
  | |- context [Z.compare ?x ?y] => destruct (Z.compare_spec x y)
  | |- context [Pos.compare ?x ?y] => destruct (Pos.compare_spec x y)
  end; cbn; try congruence; try lia.

Lemma SFltb_irreflexive (a : spec_float) : SFltb a a = false.
Proof. unfold SFltb. order_cases. Qed.

Lemma SFltb_transitive (a b c : spec_float) :
  SFltb a b = true -> SFltb b c = true -> SFltb a c = true.
Proof. unfold SFltb. order_cases. Qed.

Lemma SFltb_above_all (a b : spec_float) :
  SFltb a (S754_infinity false) = false -> SFltb a b = false.
Proof. unfold SFltb. order_cases. Qed.

Lemma SFltb_negatively_transitive (a b c : spec_float) :
  SFltb a (S754_infinity false) = true ->
  SFltb b (S754_infinity false) = true ->
  SFltb c (S754_infinity false) = true ->
  SFltb a b = false -> SFltb b c = false -> SFltb a c = false.
Proof. unfold SFltb. order_cases. Qed.

Section DoubleOrder.

Local Open Scope float_scope.

Lemma infinity_spec : Prim2SF infinity = S754_infinity false.
Proof. reflexivity. Qed.

(** [<] on doubles is irreflexive and transitive, [nan] included. *)
Lemma ltb_irreflexive (a : float) : (a <? a) = false.
Proof. rewrite ltb_spec. apply SFltb_irreflexive. Qed.

Lemma ltb_transitive (a b c : float) :
  (a <? b) = true -> (b <? c) = true -> (a <? c) = true.
Proof. rewrite !ltb_spec. apply SFltb_transitive. Qed.

(** A double that is not below [float('inf')] ([nan] or [inf]) is below
    nothing. *)
Lemma ltb_above_all (a b : float) :
  (a <? infinity) = false -> (a <? b) = false.
Proof. rewrite !ltb_spec, infinity_spec. apply SFltb_above_all. Qed.

(** Among doubles below [float('inf')], not being below is transitive. *)
Lemma ltb_negatively_transitive (a b c : float) :
  (a <? infinity) = true -> (b <? infinity) = true ->
  (c <? infinity) = true ->
  (a <? b) = false -> (b <? c) = false -> (a <? c) = false.
Proof.
  rewrite !ltb_spec, infinity_spec. apply SFltb_negatively_transitive.
Qed.

End DoubleOrder.

(** ** The energy model over doubles *)

(** Multiplying by the double 1 rounds nothing: the product of a valid
    binary64 value and 1 has the same sign, mantissa and exponent. *)
Lemma SFmul_one (x : spec_float) :
  valid_binary x = true -> SF64mul x (Prim2SF 1) = x.
Proof.
  change (Prim2SF 1) with (S754_finite false 4503599627370496 (-52)).
  destruct x as [s|s| |s m e]; cbn [SF64mul SFmul]; intros V;
    try reflexivity; try (now destruct s).
  assert (Es : xorb s false = s) by now destruct s.
  rewrite Es.
  cbn [valid_binary] in V. unfold bounded, canonical_mantissa in V.
  apply andb_prop in V. destruct V as [C B].
  apply Z.eqb_eq in C.
  rewrite Pos.mul_comm.
  change (Pos.mul 4503599627370496 m) with (Pos.iter xO m 52).
  unfold binary_round_aux, shr_fexp.
  cbn [Pos.iter Zdigits2 digits2_pos shr_record_of_loc].
  set (dg := digits2_pos m) in *.
  match goal with |- context [SpecFloat.fexp prec emax ?a] =>
    replace a with (Z.pos dg + e)%Z by (rewrite !Pos2Z.inj_succ; lia) end.
  rewrite C.
  replace (e - (e + -52))%Z with 52%Z by lia.
  cbn [shr iter_pos shr_1 orb shr_m loc_of_shr_record round_nearest_even].
  replace (e + -52 + 52)%Z with e by lia.
  cbn [Zdigits2 shr_record_of_loc]. fold dg. rewrite C.
  rewrite Z.sub_diag. cbn [shr shr_m].
  now rewrite B.
Qed.

(** [x * 1.0 == x] for every double [x], [inf] and [nan] included ([nan]
    as the same value, not by [==]). *)
Lemma double_mul_one (x : float) : (x * 1)%float = x.
Proof.
  apply Prim2SF_inj. rewrite mul_spec. apply SFmul_one, Prim2SF_valid.
Qed.

(** C7: [update_battery(time_elapsed)] consumes
    [battery_consumption_rate * time_elapsed], the claim's
    [baseRate * activityMultiplier * elapsedTime] at multiplier 1: it
    subtracts that amount from the level and adds it to [energy_consumed];
    when the level so computed is at or below 0 the level becomes exactly 0
    and the call returns [False], otherwise it returns [True].  All amounts
    are the doubles the code computes, and for every double the call is
    the specification's [charge] at multiplier 1. *)
Theorem update_battery_charges_at_multiplier_one
    (t : float) (d : Binary64.IoTDevice) :
  let rate := Binary64.battery_consumption_rate d in
  let consumption := (rate * t)%float in
  let level := (Binary64.current_battery d - consumption)%float in
  let r := fst (Binary64.update_battery t d) in
  let d' := snd (Binary64.update_battery t d) in
  Binary64.energy_consumed d'
    = (Binary64.energy_consumed d + consumption)%float /\
  ((level <=? 0)%float = true ->
     Binary64.current_battery d' = 0%float /\ r = false) /\
  ((level <=? 0)%float = false ->
     Binary64.current_battery d' = level /\ r = true) /\
  Binary64.update_battery t d = Binary64.charge 1 t d.
Proof.
  cbv zeta. unfold Binary64.update_battery, Binary64.charge.
  cbn [Binary64.current_battery Binary64.energy_consumed
       Binary64.set_current_battery Binary64.set_energy_consumed
       Binary64.battery_consumption_rate].
  split; [|split; [|split]].
  - now destruct (_ <=? _)%float.
  - intros E. rewrite E. now split.
  - intros E. rewrite E. now split.
  - now rewrite double_mul_one.
Qed.

(** Level 0.9, rate 0.3, three seconds: the consumption computed is
    0.8999999999999999, the level left is 1.1e-16 and the call returns
    [True]; at multiplier 1 the specification's operation does the same. *)
Lemma update_battery_charges_at_multiplier_one_example :
  Binary64.update_battery 3 Binary64.draining
    = (true,
       Binary64.set_energy_consumed 0x1.cccccccccccccp-1
         (Binary64.set_current_battery 0x1p-53 Binary64.draining)) /\
  Binary64.update_battery 3 Binary64.draining
    = Binary64.charge 1 3 Binary64.draining.
Proof.
  split; [vm_compute; reflexivity|].
  apply (update_battery_charges_at_multiplier_one 3 Binary64.draining).
Defined.

(** ** The selection over doubles *)

Section DoubleSelection.

Variable square : float -> Binary64.outcome float.
Variable root : float -> float.

Local Open Scope float_scope.

(** One more candidate keeps the loop's variables what [loop_state] says
    they are. *)
Lemma double_loop_state_step
    (seen : list (Binary64.EdgeNode.t * float))
    (best : option Binary64.EdgeNode.t) (bs : float)
    (node : Binary64.EdgeNode.t) (s : float) :
  Binary64.loop_state seen best bs ->
  if s <? bs
  then Binary64.loop_state (seen ++ [(node, s)]) (Some node) s
  else Binary64.loop_state (seen ++ [(node, s)]) best bs.
Proof.
  intros Hst.
  assert (Hlast : nth_error (seen ++ [(node, s)]) (List.length seen)
                  = Some (node, s))
    by (rewrite nth_error_app2 by lia; now rewrite Nat.sub_diag).
  assert (Hsplit : forall j m t,
            nth_error (seen ++ [(node, s)]) j = Some (m, t) ->
            nth_error seen j = Some (m, t) \/ (m, t) = (node, s)).
  { intros j m t Hj.
    destruct (Nat.lt_ge_cases j (List.length seen)) as [L|L].
    - left. now rewrite nth_error_app1 in Hj.
    - right. rewrite nth_error_app2 in Hj by assumption.
      destruct (j - List.length seen)%nat as [|[|?]]; cbn in Hj;
        congruence. }
  destruct best as [n|]; cbn [Binary64.loop_state] in Hst.
  - destruct Hst as (i & Hi & Hproper & Hmin & Hfirst).
    assert (Hlt : (i < List.length seen)%nat)
      by (apply nth_error_Some; congruence).
    destruct (s <? bs) eqn:E.
    + assert (Hs : (s <? infinity) = true)
        by (eapply ltb_transitive; eassumption).
      exists (List.length seen). repeat split; try assumption.
      * intros j m t Hj. apply Hsplit in Hj. destruct Hj as [Hj|[= -> ->]].
        -- destruct (t <? s) eqn:Et; [|reflexivity].
           rewrite <- (Hmin j m t Hj). symmetry.
           eapply ltb_transitive; eassumption.
        -- apply ltb_irreflexive.
      * intros j m t Hjl Hj. rewrite nth_error_app1 in Hj by assumption.
        destruct (t <? infinity) eqn:Et; [left | now right].
        destruct (s <? t) eqn:Est; [reflexivity|].
        rewrite <- E. symmetry.
        apply (ltb_negatively_transitive s t bs); try assumption.
        exact (Hmin j m t Hj).
    + exists i. repeat split; try assumption.
      * now rewrite nth_error_app1.
      * intros j m t Hj. apply Hsplit in Hj. destruct Hj as [Hj|[= -> ->]].
        -- exact (Hmin j m t Hj).
        -- assumption.
      * intros j m t Hji Hj. rewrite nth_error_app1 in Hj by lia.
        exact (Hfirst j m t Hji Hj).
  - destruct Hst as (-> & Hnone).
    destruct (s <? infinity) eqn:E.
    + exists (List.length seen). repeat split; try assumption.
      * intros j m t Hj. apply Hsplit in Hj. destruct Hj as [Hj|[= -> ->]].
        -- apply ltb_above_all. exact (Hnone j m t Hj).
        -- apply ltb_irreflexive.
      * intros j m t Hjl Hj. rewrite nth_error_app1 in Hj by assumption.
        right. exact (Hnone j m t Hj).
    + split; [reflexivity|].
      intros j m t Hj. apply Hsplit in Hj. destruct Hj as [Hj|[= -> ->]].
      * exact (Hnone j m t Hj).
      * assumption.
Qed.

(** The loop over candidates whose scores all compute. *)
Lemma double_select_loop_returns
    (d : Binary64.IoTDevice) (rest : list (Binary64.EdgeNode.t * float)) :
  Forall (fun c => Binary64.score square root d (fst c)
                   = Binary64.Returned (snd c)) rest ->
  forall seen best bs,
    Binary64.loop_state seen best bs ->
    exists best' bs',
      Binary64.select_loop square root d (map fst rest) best bs
        = Binary64.Returned best' /\
      Binary64.loop_state (seen ++ rest) best' bs'.
Proof.
  induction 1 as [|[node s] rest Hs Hrest IH]; intros seen best bs Hst.
  - exists best, bs. rewrite app_nil_r. now split.
  - cbn [map fst Binary64.select_loop]. cbn [fst snd] in Hs. rewrite Hs.
    cbn [Binary64.bind].
    apply (double_loop_state_step _ _ _ node s) in Hst.
    destruct (s <? bs); apply IH in Hst;
      destruct Hst as (best' & bs' & Hrun & Hst);
      exists best', bs'; rewrite <- app_assoc in Hst; now split.
Qed.

End DoubleSelection.

(** C4, as stated, fails twice.  A single candidate is not returned
    whatever its score: at (1e154, 1e154) the sum of the squares overflows to
    [inf], the score is [inf], the test [score < float('inf')] fails and the
    call returns [None].  And the weight 0.5 is that of the technology
    string FiveG: for a device whose technology is 5G the weight is the
    default 1.0, which here selects the other of two candidates. *)
Lemma selection_skips_infinite_score_and_weighs_5G_by_one :
  Binary64._select_best_edge_node Binary64.square64 Binary64.root64
    Binary64.far_world = Binary64.Returned None /\
  Binary64._select_best_edge_node Binary64.square64 Binary64.root64
    (Binary64.two_candidates "5G")
  = Binary64.Returned (Some (Binary64.node_at (0, 0) 40 1 0.09375))%float /\
  Binary64._select_best_edge_node Binary64.square64 Binary64.root64
    (Binary64.two_candidates "FiveG")
  = Binary64.Returned (Some (Binary64.node_at (6, 8) 40 1 0.03125))%float.
Proof. repeat split; vm_compute; reflexivity. Qed.

(** C4, amended: [_select_best_edge_node] returns [None] for an empty list.
    The score of a candidate is the distance the code computes,
    [((x - nx) ** 2 + (y - ny) ** 2) ** 0.5], times the weight of the
    device's technology string (WiFi 1.0, BLE 1.5, LTE 0.7, FiveG 0.5, and
    1.0 for any other string, 5G included) plus 100 times its utilization,
    all in doubles.  On a list whose scores all compute (no power
    overflows), the call returns the first candidate attaining the minimal
    score among the candidates whose score is below [float('inf')], and
    [None] when no score is; a single candidate is returned exactly when its
    score is below [float('inf')]. *)
Theorem select_best_edge_node_first_minimum_of_doubles
    (square : float -> Binary64.outcome float) (root : float -> float)
    (d : Binary64.IoTDevice) (k : Binary64.Task) :
  let weight tech := dict_get Binary64.distance_weights tech 1%float in
  let select nodes :=
    Binary64._select_best_edge_node square root
      {| Binary64.self := d; Binary64.task := k;
         Binary64.edge_nodes := nodes |} in
  (weight "WiFi" = 1 /\ weight "BLE" = 1.5 /\ weight "LTE" = 0.7 /\
   weight "FiveG" = 0.5 /\ weight "5G" = 1 /\
   forall tech, ~ In tech ["WiFi"; "BLE"; "LTE"; "FiveG"] -> weight tech = 1)%string%float /\
  (forall node dx2 dy2,
     square (fst (Binary64.location d)
             - fst (Binary64.EdgeNode.location node))%float
       = Binary64.Returned dx2 ->
     square (snd (Binary64.location d)
             - snd (Binary64.EdgeNode.location node))%float
       = Binary64.Returned dy2 ->
     Binary64.score square root d node
     = Binary64.Returned
         (root (dx2 + dy2) * weight (Binary64.wireless_tech d)
          + Binary64.EdgeNode.utilization node * 100)%float) /\
  select [] = Binary64.Returned None /\
  (forall cands : list (Binary64.EdgeNode.t * float),
     Forall (fun c => Binary64.score square root d (fst c)
                      = Binary64.Returned (snd c)) cands ->
     exists best,
       select (map fst cands) = Binary64.Returned best /\
       match best with
       | None =>
           forall n s, In (n, s) cands -> (s <? infinity)%float = false
       | Some n => exists i s, Binary64.first_best cands i n s
       end) /\
  (forall n s,
     Binary64.score square root d n = Binary64.Returned s ->
     select [n]
     = Binary64.Returned (if (s <? infinity)%float then Some n else None)).
Proof.
  cbv zeta. split; [|split; [|split; [|split]]].
  - do 5 (split; [reflexivity|]).
    intros tech Hnot. cbn [dict_get Binary64.distance_weights].
    repeat match goal with
    | |- context [String.eqb ?a tech] =>
        destruct (String.eqb_spec a tech) as [E|_];
          [exfalso; apply Hnot; rewrite <- E; cbn; tauto|]
    end.
    reflexivity.
  - intros node dx2 dy2 Hx Hy. unfold Binary64.score.
    now rewrite Hx, Hy.
  - reflexivity.
  - intros cands Hscores.
    destruct cands as [|c cands]; [exists None; split; [reflexivity | now intros]|].
    destruct (double_select_loop_returns square root d (c :: cands) Hscores
                [] None infinity) as (best & bs & Hrun & Hst).
    { split; [reflexivity|]. intros [|j] m t Hj; discriminate. }
    exists best. split.
    + unfold Binary64._select_best_edge_node.
      cbn [Binary64.edge_nodes Binary64.self map]. cbn [map] in Hrun.
      exact Hrun.
    + cbn [app] in Hst. destruct best as [n|]; cbn in Hst.
      * destruct Hst as [i Hi]. now exists i, bs.
      * destruct Hst as [_ Hnone]. intros n s Hin.
        apply In_nth_error in Hin. destruct Hin as [j Hj]. eauto.
  - intros n s Hs. unfold Binary64._select_best_edge_node.
    cbn [Binary64.edge_nodes Binary64.self Binary64.select_loop].
    rewrite Hs. cbn [Binary64.bind]. now destruct (s <? infinity)%float.
Qed.

(** Two candidates at the same place, the second less loaded, and a third
    whose score is [nan]: the second is selected. *)
Example select_best_edge_node_of_doubles_example :
  Binary64._select_best_edge_node Binary64.square64 Binary64.root64
    {| Binary64.self := Binary64.self Binary64.tie_world;
       Binary64.task := Binary64.task Binary64.tie_world;
       Binary64.edge_nodes :=
         [Binary64.node_at (3, 4) 40 1 0.5; Binary64.node_at (3, 4) 40 1 0.25;
          Binary64.node_at (3, 4) 40 1 nan]%float |}
  = Binary64.Returned (Some (Binary64.node_at (3, 4) 40 1 0.25))%float.
Proof. vm_compute. reflexivity. Qed.

(** ** The comparison of utilities over doubles *)

Lemma double_div_returns (a b : float) :
  (b =? 0)%float = false ->
  Binary64.div a b = Binary64.Returned (a / b)%float.
Proof. intros H. unfold Binary64.div. now rewrite H. Qed.

(** C3, as stated, fails twice.  With latency as the only weight, a task of
    28 on a device of 35 MIPS and a node of 40 MIPS behind a latency of 100
    ms meets every hypothesis of the claim, and its two utilities are both
    4/5 in exact arithmetic, where the claim gives [False]; the code
    computes 0.1 + 0.7 = 0.7999999999999999 for the node and 0.8 for the
    device and returns [True].  And a selected node whose rate is zero makes
    the call raise [ZeroDivisionError]. *)
Lemma utility_tie_broken_by_rounding_and_stalled_node_raises :
  (0.25 <= 1000 / 1000 /\ 28 <= 35 /\ 0 <= 1000000 /\
   0 * (0 / (50 * 125000) * 0.5)
   + 1 * (100 / 1000 + 0 / (50 * 125000) + 28 / 40) + 0 * (28 * 1)
   == 0 * (28 / 35 * 1 * 2) + 1 * (28 / 35))%Q /\
  Binary64._select_best_edge_node Binary64.square64 Binary64.root64
    Binary64.tie_world
  = Binary64.Returned (Some (Binary64.node_at (3, 4) 40 1 0.5))%float /\
  Binary64.should_offload_task Binary64.square64 Binary64.root64
    Binary64.tie_world = Binary64.Returned true /\
  Binary64.should_offload_task Binary64.square64 Binary64.root64
    Binary64.stalled_world = Binary64.Raised Binary64.ZeroDivisionError.
Proof.
  split; [|repeat split; vm_compute; reflexivity].
  repeat split; vm_compute; congruence.
Qed.

(** C3, amended: let the battery capacity and the device's [mips] be
    nonzero, the battery fraction the code computes be not below
    [threshold_battery_level], the task's [mips_required] be not above the
    device's [mips], and the payload rule not fire ([input_size] not above
    [threshold_task_size], or the network quality computed not above
    [threshold_network_quality]).  If the selection yields no node,
    [should_offload_task] returns [False].  If it yields a node and both
    [bandwidth_mbps * 125000] and the node's [mips] are nonzero, it returns
    [True] exactly when the double computed for
    [wEnergy*edgeEnergy + wLatency*edgeTime + wCost*(mips_required*cost_per_mips)]
    is strictly less than the double computed for
    [wEnergy*localEnergy + wLatency*localTime]; when the two doubles are
    equal it returns [False]. *)
Theorem utility_comparison_of_doubles
    (square : float -> Binary64.outcome float) (root : float -> float)
    (w : Binary64.World) (best : option Binary64.EdgeNode.t) :
  let d := Binary64.self w in
  let n := Binary64.network_params d in
  let p := Binary64.offloading_policy d in
  let mr := Binary64.mips_required (Binary64.task w) in
  let size := Binary64.input_size (Binary64.task w) in
  (Binary64.battery_capacity d =? 0)%float = false ->
  (Binary64.mips d =? 0)%float = false ->
  (Binary64.current_battery d / Binary64.battery_capacity d
     <? Binary64.threshold_battery_level p)%float = false ->
  (Binary64.mips d <? mr)%float = false ->
  (Binary64.threshold_task_size p <? size)%float = false \/
    (Binary64.threshold_network_quality p
       <? Binary64.reliability n * (Binary64.bandwidth_mbps n / 100))%float
    = false ->
  Binary64._select_best_edge_node square root w = Binary64.Returned best ->
  match best with
  | None =>
      Binary64.should_offload_task square root w = Binary64.Returned false
  | Some node =>
      (Binary64.bandwidth_mbps n * 125000 =? 0)%float = false ->
      (Binary64.EdgeNode.mips node =? 0)%float = false ->
      let localTime := (mr / Binary64.mips d)%float in
      let localEnergy :=
        (localTime * Binary64.battery_consumption_rate d * 2)%float in
      let transferTime :=
        (size / (Binary64.bandwidth_mbps n * 125000))%float in
      let edgeTime :=
        (Binary64.latency_ms n / 1000 + transferTime
         + mr / Binary64.EdgeNode.mips node)%float in
      let edgeEnergy := (transferTime * Binary64.energy_consumption n)%float in
      let edgeUtility :=
        (Binary64.weight_energy p * edgeEnergy
         + Binary64.weight_latency p * edgeTime
         + Binary64.weight_cost p
           * (mr * Binary64.EdgeNode.cost_per_mips node))%float in
      let localUtility :=
        (Binary64.weight_energy p * localEnergy
         + Binary64.weight_latency p * localTime)%float in
      Binary64.should_offload_task square root w
        = Binary64.Returned (edgeUtility <? localUtility)%float /\
      (edgeUtility = localUtility ->
       Binary64.should_offload_task square root w = Binary64.Returned false)
  end.
Proof.
  cbv zeta. intros Hcap Hm Hlevel Hmr Hrule Hbest.
  unfold Binary64.should_offload_task. cbv zeta.
  rewrite (double_div_returns _ _ Hcap). cbn [Binary64.bind].
  rewrite Hlevel, Hmr.
  rewrite (double_div_returns _ 100%float eq_refl).
  rewrite (double_div_returns _ _ Hm).
  rewrite Hbest.
  assert (Hsilent :
    (if (Binary64.threshold_task_size
           (Binary64.offloading_policy (Binary64.self w))
         <? Binary64.input_size (Binary64.task w))%float
     then
       Binary64.bind
         (Binary64.Returned
            (Binary64.bandwidth_mbps
               (Binary64.network_params (Binary64.self w)) / 100)%float)
         (fun normalized =>
            Binary64.Returned
              (Binary64.threshold_network_quality
                 (Binary64.offloading_policy (Binary64.self w))
               <? Binary64.reliability
                    (Binary64.network_params (Binary64.self w))
                  * normalized)%float)
     else Binary64.Returned false) = Binary64.Returned false).
  { destruct (_ <? Binary64.input_size _)%float; [|reflexivity].
    destruct Hrule as [Hrule|Hrule]; [discriminate|].
    cbn [Binary64.bind]. now rewrite Hrule. }
  rewrite Hsilent. cbn [Binary64.bind].
  destruct best as [node|]; [|reflexivity].
  intros Hbw Hnode.
  rewrite (double_div_returns _ 1000%float eq_refl).
  rewrite (double_div_returns _ _ Hbw), (double_div_returns _ _ Hnode).
  cbn [Binary64.bind]. split; [reflexivity|].
  intros ->. now rewrite ltb_irreflexive.
Qed.

Lemma utility_comparison_of_doubles_example :
  Binary64.should_offload_task Binary64.square64 Binary64.root64
    Binary64.tie_world
  = Binary64.Returned (0x1.9999999999999p-1 <? 0x1.999999999999ap-1)%float.
Proof.
  exact (proj1 (utility_comparison_of_doubles Binary64.square64
                  Binary64.root64 Binary64.tie_world
                  (Some (Binary64.node_at (3, 4) 40 1 0.5)%float)
                  eq_refl eq_refl eq_refl eq_refl (or_introl eq_refl) eq_refl
                  eq_refl eq_refl)).
Defined.

(** ** Restated over doubles *)

Lemma SFltb_below_infinity (a b : spec_float) :
  SFltb a b = true -> SFltb a (S754_infinity false) = true.
Proof. unfold SFltb. order_cases. Qed.

(** What is below something is below [float('inf')]. *)
Lemma ltb_below_infinity (a b : float) :
  (a <? b)%float = true -> (a <? infinity)%float = true.
Proof. rewrite !ltb_spec, infinity_spec. apply SFltb_below_infinity. Qed.

Lemma ltb_asymmetric (a b : float) :
  (a <? b)%float = true -> (b <? a)%float = false.
Proof.
  intros H. destruct (b <? a)%float eqn:E; [|reflexivity].
  rewrite <- (ltb_irreflexive a). symmetry.
  eapply ltb_transitive; eassumption.
Qed.

(** X15: with an empty candidate list, and a battery capacity and a device
    rate that are not zero, [should_offload_task] returns the disjunction of
    its three rules as the code computes them in doubles: battery fraction
    below the threshold, [mips_required] above the device's [mips], or input
    above [threshold_task_size] on a link whose quality is above
    [threshold_network_quality]. *)
Theorem should_offload_task_without_nodes_of_doubles
    (square : float -> Binary64.outcome float) (root : float -> float)
    (d : Binary64.IoTDevice) (k : Binary64.Task) :
  let p := Binary64.offloading_policy d in
  let n := Binary64.network_params d in
  (Binary64.battery_capacity d =? 0)%float = false ->
  (Binary64.mips d =? 0)%float = false ->
  Binary64.should_offload_task square root
    {| Binary64.self := d; Binary64.task := k; Binary64.edge_nodes := [] |}
  = Binary64.Returned
      ((Binary64.current_battery d / Binary64.battery_capacity d
          <? Binary64.threshold_battery_level p)%float
       || (Binary64.mips d <? Binary64.mips_required k)%float
       || ((Binary64.threshold_task_size p <? Binary64.input_size k)%float
           && (Binary64.threshold_network_quality p
                 <? Binary64.reliability n
                    * (Binary64.bandwidth_mbps n / 100))%float)).
Proof.
  cbv zeta. intros Hcap Hm.
  unfold Binary64.should_offload_task. cbv zeta.
  cbn [Binary64.self Binary64.task].
  rewrite (double_div_returns _ _ Hcap). cbn [Binary64.bind].
  rewrite (double_div_returns _ 100%float eq_refl).
  rewrite (double_div_returns _ _ Hm).
  destruct (_ <? Binary64.threshold_battery_level _)%float; [reflexivity|].
  destruct (Binary64.mips d <? _)%float; [reflexivity|].
  destruct (_ <? Binary64.input_size k)%float; cbn [Binary64.bind orb andb];
    [|reflexivity].
  now destruct (_ <? _)%float.
Qed.

Lemma should_offload_task_without_nodes_of_doubles_example :
  Binary64.should_offload_task Binary64.square64 Binary64.root64
    {| Binary64.self := Binary64.draining;
       Binary64.task := Binary64.task Binary64.tie_world;
       Binary64.edge_nodes := [] |}
  = Binary64.Returned
      ((0.9 / 1000 <? 0.25)%float || (35 <? 28)%float
       || ((1000000 <? 0)%float && (0.75 <? 0.5 * (50 / 100))%float)).
Proof.
  exact (should_offload_task_without_nodes_of_doubles Binary64.square64
           Binary64.root64 Binary64.draining
           (Binary64.task Binary64.tie_world) eq_refl eq_refl).
Defined.

(** X18: of two candidates, the one whose computed score is strictly lower
    is selected, whether it comes first or second in the list; the other
    score may be anything, [inf] included. *)
Theorem select_prefers_lower_computed_score
    (square : float -> Binary64.outcome float) (root : float -> float)
    (d : Binary64.IoTDevice) (k : Binary64.Task)
    (a b : Binary64.EdgeNode.t) (sa sb : float) :
  Binary64.score square root d a = Binary64.Returned sa ->
  Binary64.score square root d b = Binary64.Returned sb ->
  (sa <? sb)%float = true ->
  Binary64._select_best_edge_node square root
    {| Binary64.self := d; Binary64.task := k;
       Binary64.edge_nodes := [a; b] |} = Binary64.Returned (Some a) /\
  Binary64._select_best_edge_node square root
    {| Binary64.self := d; Binary64.task := k;
       Binary64.edge_nodes := [b; a] |} = Binary64.Returned (Some a).
Proof.
  intros Ha Hb Hlt.
  pose proof (ltb_below_infinity _ _ Hlt) as Hproper.
  pose proof (ltb_asymmetric _ _ Hlt) as Hnot.
  unfold Binary64._select_best_edge_node.
  cbn [Binary64.edge_nodes Binary64.self Binary64.select_loop].
  rewrite Ha, Hb. cbn [Binary64.bind]. rewrite Hproper, Hnot, Hlt.
  split; [reflexivity|]. now destruct (sb <? infinity)%float.
Qed.

Lemma select_prefers_lower_computed_score_example :
  Binary64._select_best_edge_node Binary64.square64 Binary64.root64
    {| Binary64.self := Binary64.draining;
       Binary64.task := Binary64.task Binary64.tie_world;
       Binary64.edge_nodes :=
         [Binary64.node_at (3, 4) 40 1 0.25;
          Binary64.node_at (3, 4) 40 1 0.5]%float |}
    = Binary64.Returned (Some (Binary64.node_at (3, 4) 40 1 0.25)%float) /\
  Binary64._select_best_edge_node Binary64.square64 Binary64.root64
    {| Binary64.self := Binary64.draining;
       Binary64.task := Binary64.task Binary64.tie_world;
       Binary64.edge_nodes :=
         [Binary64.node_at (3, 4) 40 1 0.5;
          Binary64.node_at (3, 4) 40 1 0.25]%float |}
    = Binary64.Returned (Some (Binary64.node_at (3, 4) 40 1 0.25)%float).
Proof.
  exact (select_prefers_lower_computed_score Binary64.square64 Binary64.root64
           Binary64.draining (Binary64.task Binary64.tie_world)
           (Binary64.node_at (3, 4) 40 1 0.25)%float
           (Binary64.node_at (3, 4) 40 1 0.5)%float 30%float 55%float
           eq_refl eq_refl eq_refl).
Defined.

(** ** Restated over exact numbers *)

(** X21: [get_status] never changes the device, and on a battery capacity
    of zero it raises [ZeroDivisionError]. *)
Theorem get_status_raises_on_zero_capacity (d : IoTDevice) :
  final get_status d = d /\
  (battery_capacity d == 0 ->
   result get_status d = Raised ZeroDivisionError).
Proof.
  unfold get_status. run. rewrite pydiv_value.
  destruct (Qeq_bool (battery_capacity d) 0) eqn:E; cbn.
  - now split.
  - apply Qeq_bool_neq in E. split; [reflexivity|]. intros H. contradiction.
Qed.

(** X30: a device the constructor returns, with a positive capacity and a
    consumption rate that is not negative, reports after any run of
    [update_battery] calls over intervals that are not negative a
    [battery_level] between 0 and 1, and exactly 1 before the first
    call. *)
Theorem built_device_reports_battery_in_unit_interval
    (id : Z) (config : Config.t) (device_type : option string) (drawn : nat)
    (x y : Q) (d : IoTDevice) (ts : list Q) :
  __init__ id config device_type drawn x y = inr d ->
  0 < battery_capacity d ->
  0 <= battery_consumption_rate d ->
  Forall (fun t => 0 <= t) ts ->
  exists st,
    result get_status (update_battery_run ts d) = Returned st /\
    0 <= Status.battery_level st <= 1 /\
    (ts = [] -> Status.battery_level st == 1).
Proof.
  intros Hrun Hcap Hrate Hts.
  assert (Hfull : current_battery d = battery_capacity d).
  { destruct (Config.types config) as [|first rest] eqn:Htypes.
    - unfold __init__ in Hrun. rewrite Htypes in Hrun. discriminate.
    - destruct (init_unfold id config device_type drawn x y first rest Htypes)
        as (t & _ & _ & Hrun').
      rewrite Hrun in Hrun'. destruct (dict_lookup _ _); [|discriminate].
      now injection Hrun' as ->. }
  destruct (update_battery_run_invariant ts d Hrate Hts)
    as ((R0 & R1) & R2 & R3 & _).
  { rewrite Hfull. split; [now apply Qlt_le_weak | apply Qle_refl]. }
  assert (Hnz : ~ battery_capacity (update_battery_run ts d) == 0)
    by (rewrite R3; lra).
  unfold get_status. run. rewrite pydiv_returns by assumption. cbn.
  eexists. split; [reflexivity|]. cbn. rewrite R3 in *. repeat split.
  - apply Qle_shift_div_l; [assumption | lra].
  - apply Qle_shift_div_r; [assumption | lra].
  - intros ->. cbn. rewrite Hfull. field. lra.
Qed.

Lemma built_device_reports_battery_in_unit_interval_example :
  exists st,
    result get_status
      (update_battery_run [10; 20] (device_on wifi 2500 4000 4000 0.5))
    = Returned st /\
    0 <= Status.battery_level st <= 1 /\
    ([10; 20] = [] -> Status.battery_level st == 1).
Proof.
  apply (built_device_reports_battery_in_unit_interval 7
           {| Config.types := [sensor_type; phone_type];
              Config.technologies := [("WiFi"%string, wifi)];
              Config.offloading_policy := default_policy |}
           (Some "smartphone"%string) 0 0 0
           (device_on wifi 2500 4000 4000 0.5) [10; 20]).
  - reflexivity.
  - reflexivity.
  - vm_compute. discriminate.
  - repeat constructor; vm_compute; discriminate.
Defined.
